(** * The backend API service ([backend/server.js])

    A shallow embedding of the Express application of [backend/server.js]
    and of the parts of its runtime that decide what a client observes.

    [server.js] itself is short: it reads [PORT], registers three
    middlewares and two GET routes, and listens. It is embedded line by
    line in the part headed [backend/server.js] below: [PORT], [app]
    (the five layers in the order of registration), [root_handler],
    [data_handler] and [listen].

    What a request gets is decided by the libraries these lines call, so
    the first parts of this file give them a meaning: the [cors]
    middleware, the two [body-parser] middlewares, Express' router,
    [res.send] and [res.json] (with the entity tag and the
    conditional-GET check they perform), [finalhandler],
    [net.Server.listen], and from the language
    [Date.prototype.toISOString], [JSON.stringify], [JSON.parse] and
    [Number]. They follow the default behaviour of express 4, cors 2.8
    and body-parser 1.20.3 as their sources and documentation give it
    (the repository pins no versions); each definition names the
    JavaScript function it renders, and the comments say where a
    library is followed only as far as this application can reach.

    Which requests body-parser accepts is decided far from [server.js]:
    by [type-is], [content-type], [raw-body], zlib, iconv-lite and [qs].
    The statements about the routes do not rest on that: they hold for
    every pair of middlewares in the place of [bodyParser.json()] and
    [bodyParser.urlencoded()], for the requests that the two pass on.
    The model of body-parser serves the examples, and the statements
    that are about every request.

    Middlewares and handlers are given the store of the process, so
    that what they leave behind for later requests is a matter of proof.

    The claims of the specification are settled after the lemmas; the
    last part adds properties of the service that the specification
    does not state. *)

From Stdlib Require Import ZArith QArith Qround Qpower Lqa Ascii String List Bool Lia.
From Stdlib Require Import DecimalString HexadecimalString.
From stdpp Require Import base option gmap strings.

Import ListNotations.
Local Open Scope Z_scope.

(** ** Strings and numbers as JavaScript sees them here

    Every string the service handles is a sequence of bytes: [string]
    is a list of 8-bit characters. A header value has one character per
    byte (Node decodes headers as latin1); an environment variable and
    a request body are UTF-8 text. *)

Module JS.

Definition code (c : ascii) : Z := Z.of_N (N_of_ascii c).
Definition chr (n : Z) : ascii := ascii_of_N (Z.to_N n).

Definition is_upper (c : ascii) : bool := (65 <=? code c) && (code c <=? 90).
Definition is_lower (c : ascii) : bool := (97 <=? code c) && (code c <=? 122).
Definition is_digit (c : ascii) : bool := (48 <=? code c) && (code c <=? 57).

Definition lower_char (c : ascii) : ascii :=
  if is_upper c then chr (code c + 32) else c.
Definition upper_char (c : ascii) : ascii :=
  if is_lower c then chr (code c - 32) else c.

Fixpoint map_string (f : ascii -> ascii) (s : string) : string :=
  match s with
  | EmptyString => EmptyString
  | String c s' => String (f c) (map_string f s')
  end.

(** [String.prototype.toLowerCase] / [toUpperCase] on ASCII text. *)
Definition toLowerCase : string -> string := map_string lower_char.
Definition toUpperCase : string -> string := map_string upper_char.

Fixpoint all_chars (p : ascii -> bool) (s : string) : bool :=
  match s with
  | EmptyString => true
  | String c s' => p c && all_chars p s'
  end.

Definition len (s : string) : Z := Z.of_nat (String.length s).

Definition bytes (s : string) : list Z := map code (list_ascii_of_string s).

Fixpoint of_codes (l : list Z) : string :=
  match l with
  | [] => EmptyString
  | n :: l' => String (chr n) (of_codes l')
  end.

Fixpoint rev_onto (s acc : string) : string :=
  match s with
  | String c s' => rev_onto s' (String c acc)
  | EmptyString => acc
  end.

Definition reverse (s : string) : string := rev_onto s "".

(** The longest prefix of characters in [p], and the rest. *)
Fixpoint span (p : ascii -> bool) (s : string) : string * string :=
  match s with
  | String c s' =>
      if p c then let '(d, r) := span p s' in (String c d, r) else ("", s)
  | EmptyString => ("", "")
  end.

(** [s] without its prefix [p]. *)
Fixpoint strip_prefix (p s : string) : option string :=
  match p, s with
  | EmptyString, _ => Some s
  | String a p', String b s' => if Ascii.eqb a b then strip_prefix p' s' else None
  | String _ _, EmptyString => None
  end.

Fixpoint strip_any (ps : list string) (s : string) : option string :=
  match ps with
  | [] => None
  | p :: ps' =>
      match strip_prefix p s with
      | Some r => Some r
      | None => strip_any ps' s
      end
  end.

Fixpoint strip_all (fuel : nat) (ps : list string) (s : string) : string :=
  match fuel with
  | O => s
  | S fuel' =>
      match strip_any ps s with
      | Some r => strip_all fuel' ps r
      | None => s
      end
  end.

(** The white space of [StrWhiteSpaceChar] (WhiteSpace and
    LineTerminator): in UTF-8 text, and in a string of one-byte
    characters. *)
Definition utf8_space : list string :=
  map of_codes
    ([[9]; [10]; [11]; [12]; [13]; [32]; [194; 160]; [225; 154; 128]]
     ++ map (fun n => [226; 128; n])
            [128; 129; 130; 131; 132; 133; 134; 135; 136; 137; 138]
     ++ [[226; 128; 168]; [226; 128; 169]; [226; 128; 175]; [226; 129; 159];
         [227; 128; 128]; [239; 187; 191]]).

Definition latin1_space : list string :=
  map of_codes [[9]; [10]; [11]; [12]; [13]; [32]; [160]].

Definition trimStart (ws : list string) (s : string) : string :=
  strip_all (String.length s) ws s.

(** [String.prototype.trim] *)
Definition trim (ws : list string) (s : string) : string :=
  let s1 := trimStart ws s in
  reverse (strip_all (String.length s1) (map reverse ws) (reverse s1)).

(** The values [process.env.PORT || 3000] ranges over. *)
Inductive value : Type :=
| Undefined
| Str (s : string)
| Num (n : Z).

(** [ToBoolean]: [undefined], the empty string and [0] are falsy. *)
Definition truthy (v : value) : bool :=
  match v with
  | Undefined => false
  | Str s => negb (String.eqb s "")
  | Num n => negb (n =? 0)
  end.

(** [a || b]. *)
Definition or (a b : value) : value := if truthy a then a else b.

(** *** [Number(s)] and [parseInt(s, 10)]

    A Number is kept as the mathematical value of its literal, before
    it is rounded to a double: not a number, an infinity, or
    [mantissa * 10 ^ exponent] with its sign (a zero has one too). What
    the callers ask of the double (is it an integer of 16 bits, is it at
    least zero) is decided on that value by exact arithmetic. *)
Inductive number : Type :=
| NaN
| Infinity (negative : bool)
| Finite (negative : bool) (mantissa : Z) (exponent : Z).

Definition digit_value (c : ascii) : option Z :=
  let n := code c in
  if (48 <=? n) && (n <=? 57) then Some (n - 48)
  else if (65 <=? n) && (n <=? 70) then Some (n - 55)
  else if (97 <=? n) && (n <=? 102) then Some (n - 87)
  else None.

(** The value of a string of digits in [base]. *)
Fixpoint numeral (base : Z) (acc : Z) (s : string) : option Z :=
  match s with
  | EmptyString => Some acc
  | String c s' =>
      match digit_value c with
      | Some d => if d <? base then numeral base (base * acc + d) s' else None
      | None => None
      end
  end.

Definition digits_in (base : Z) (s : string) : option Z :=
  if String.eqb s "" then None else numeral base 0 s.

(** StrUnsignedDecimalLiteral: [Infinity], or digits with an optional
    fraction and an optional exponent (one digit at least before the
    exponent). *)
Definition unsigned_decimal (negative : bool) (s : string) : number :=
  if String.eqb s "Infinity" then Infinity negative
  else
    let '(int, r1) := span is_digit s in
    let '(frac, r2) :=
      match r1 with
      | String "." r => span is_digit r
      | _ => ("", r1)
      end in
    if String.eqb int "" && String.eqb frac "" then NaN
    else
      let mantissa := default 0 (numeral 10 0 (int +:+ frac)) in
      let scale := - Z.of_nat (String.length frac) in
      match r2 with
      | EmptyString => Finite negative mantissa scale
      | String e r3 =>
          if (code e =? 101) || (code e =? 69) then
            let '(minus, r4) :=
              match r3 with
              | String "+" r => (false, r)
              | String "-" r => (true, r)
              | _ => (false, r3)
              end in
            match digits_in 10 r4 with
            | Some x => Finite negative mantissa (scale + (if minus then - x else x))
            | None => NaN
            end
          else NaN
      end.

(** The digits of a binary, octal or hexadecimal literal, with the
    base. *)
Definition radix_literal (t : string) : option (Z * string) :=
  match strip_any ["0x"; "0X"] t with
  | Some r => Some (16, r)
  | None =>
      match strip_any ["0o"; "0O"] t with
      | Some r => Some (8, r)
      | None =>
          match strip_any ["0b"; "0B"] t with
          | Some r => Some (2, r)
          | None => None
          end
      end
  end.

(** [StringToNumber]: white space is trimmed, the empty string is 0, a
    binary, octal or hexadecimal literal takes no sign. *)
Definition Number (ws : list string) (s : string) : number :=
  let t := trim ws s in
  if String.eqb t "" then Finite false 0 0
  else
    match radix_literal t with
    | Some (base, r) =>
        match digits_in base r with
        | Some n => Finite false n 0
        | None => NaN
        end
    | None =>
        match strip_prefix "+" t with
        | Some r => unsigned_decimal false r
        | None =>
            match strip_prefix "-" t with
            | Some r => unsigned_decimal true r
            | None => unsigned_decimal false t
            end
        end
    end.

Definition isNaN (x : number) : bool :=
  match x with NaN => true | _ => false end.

Definition magnitude (mantissa exponent : Z) : Q :=
  (inject_Z mantissa * Qpower 10 exponent)%Q.

(** The double nearest to [q >= 0] is the integer [n], where
    [0 <= n < 2^53]: [q] is within half the gap to the neighbouring
    double on either side of [n] (a tie goes to [n], whose significand
    is even). Below a power of two the gap is half as wide; next to 0
    the neighbour is the least subnormal, [2^-1074]. *)
Definition rounds_to (q : Q) (n : Z) : bool :=
  if n =? 0 then Qle_bool q (Qpower 2 (-1075))
  else
    let k := Z.log2 n in
    let below := if n =? 2 ^ k then Qpower 2 (k - 54) else Qpower 2 (k - 53) in
    Qle_bool (inject_Z n - below) q && Qle_bool q (inject_Z n + Qpower 2 (k - 53)).

(** The integer from 0 to [bound] that the Number is as a double (the
    sign of a zero does not count), if it is one. *)
Definition integer_upto (bound : Z) (x : number) : option Z :=
  match x with
  | Finite negative m e =>
      let q := magnitude m e in
      let n := Qfloor (q + (1 # 2))%Q in
      if negative && negb (rounds_to q 0) then None
      else if (n <=? bound) && rounds_to q n then Some n else None
  | _ => None
  end.

(** [x >= 0] *)
Definition ge_zero (x : number) : bool :=
  match x with
  | NaN => false
  | Infinity negative => negb negative
  | Finite negative m e => negb negative || rounds_to (magnitude m e) 0
  end.

(** [parseInt(s, 10)]: leading white space, a sign, then the longest
    run of decimal digits; [None] is NaN. *)
Definition parseInt (ws : list string) (s : string) : option Z :=
  let t := trimStart ws s in
  let '(negative, r) :=
    match strip_prefix "-" t with
    | Some r => (true, r)
    | None => (false, default t (strip_prefix "+" t))
    end in
  n ← digits_in 10 (fst (span is_digit r));
  Some (if negative then - n else n).

End JS.

(** ** SHA-1 and base64, as used by the [etag] package *)

Module Sha1.

Definition mask32 (x : Z) : Z := Z.land x 0xFFFFFFFF.
Definition add32 (x y : Z) : Z := mask32 (x + y).
Definition rotl32 (n x : Z) : Z :=
  mask32 (Z.lor (Z.shiftl x n) (Z.shiftr x (32 - n))).
Definition not32 (x : Z) : Z := Z.lxor x 0xFFFFFFFF.

(** Message padding: a [1] bit, zeros up to 56 mod 64, then the bit
    length as a 64-bit big-endian integer. *)
Definition be_bytes (k : nat) (x : Z) : list Z :=
  map (fun i => Z.land (Z.shiftr x (8 * Z.of_nat i)) 255) (rev (seq 0 k)).

Definition pad (msg : list Z) : list Z :=
  let l := Z.of_nat (length msg) in
  let zeros := Z.to_nat ((55 - l) mod 64) in
  msg ++ [128] ++ repeat 0 zeros ++ be_bytes 8 (8 * l).

Fixpoint be_word (bs : list Z) (acc : Z) : Z :=
  match bs with
  | [] => acc
  | b :: bs' => be_word bs' (Z.lor (Z.shiftl acc 8) b)
  end.

Fixpoint words (n : nat) (bs : list Z) : list Z :=
  match n with
  | O => []
  | S n' => be_word (firstn 4 bs) 0 :: words n' (skipn 4 bs)
  end.

(** The message schedule, most recent word first. *)
Fixpoint schedule (k : nat) (w : list Z) : list Z :=
  match k with
  | O => w
  | S k' =>
      let x := Z.lxor (Z.lxor (nth 2 w 0) (nth 7 w 0))
                      (Z.lxor (nth 13 w 0) (nth 15 w 0)) in
      schedule k' (rotl32 1 x :: w)
  end.

Definition state : Type := Z * Z * Z * Z * Z.

Definition round (st : state) (tw : nat * Z) : state :=
  let '(a, b, c, d, e) := st in
  let '(t, w) := tw in
  let '(f, k) :=
    if (t <? 20)%nat then
      (Z.lor (Z.land b c) (Z.land (not32 b) d), 0x5A827999)
    else if (t <? 40)%nat then
      (Z.lxor (Z.lxor b c) d, 0x6ED9EBA1)
    else if (t <? 60)%nat then
      (Z.lor (Z.lor (Z.land b c) (Z.land b d)) (Z.land c d), 0x8F1BBCDC)
    else
      (Z.lxor (Z.lxor b c) d, 0xCA62C1D6) in
  (add32 (add32 (add32 (add32 (rotl32 5 a) f) e) k) w,
   a, rotl32 30 b, c, d).

Definition compress (h : state) (block : list Z) : state :=
  let w := rev (schedule 64 (rev (words 16 block))) in
  let '(a, b, c, d, e) := fold_left round (combine (seq 0 80) w) h in
  let '(h0, h1, h2, h3, h4) := h in
  (add32 h0 a, add32 h1 b, add32 h2 c, add32 h3 d, add32 h4 e).

Fixpoint blocks (n : nat) (bs : list Z) (h : state) : state :=
  match n with
  | O => h
  | S n' => blocks n' (skipn 64 bs) (compress h (firstn 64 bs))
  end.

Definition init : state :=
  (0x67452301, 0xEFCDAB89, 0x98BADCFE, 0x10325476, 0xC3D2E1F0).

Definition digest (msg : list Z) : list Z :=
  let p := pad msg in
  let '(h0, h1, h2, h3, h4) := blocks (length p / 64) p init in
  be_bytes 4 h0 ++ be_bytes 4 h1 ++ be_bytes 4 h2 ++ be_bytes 4 h3 ++ be_bytes 4 h4.

End Sha1.

Module Base64.

Definition alphabet : string :=
  "ABCDEFGHIJKLMNOPQRSTUVWXYZabcdefghijklmnopqrstuvwxyz0123456789+/".

Definition digit (n : Z) : ascii :=
  match String.get (Z.to_nat n) alphabet with
  | Some c => c
  | None => "="%char
  end.

Fixpoint encode (bs : list Z) : string :=
  match bs with
  | [] => ""
  | [a] =>
      String (digit (Z.shiftr a 2))
        (String (digit (Z.shiftl (Z.land a 3) 4)) "==")
  | [a; b] =>
      String (digit (Z.shiftr a 2))
        (String (digit (Z.lor (Z.shiftl (Z.land a 3) 4) (Z.shiftr b 4)))
           (String (digit (Z.shiftl (Z.land b 15) 2)) "="))
  | a :: b :: c :: rest =>
      String (digit (Z.shiftr a 2))
        (String (digit (Z.lor (Z.shiftl (Z.land a 3) 4) (Z.shiftr b 4)))
           (String (digit (Z.lor (Z.shiftl (Z.land b 15) 2) (Z.shiftr c 6)))
              (String (digit (Z.land c 63)) (encode rest))))
  end.

End Base64.

(** ** [Date]: time values, [toISOString] and the ISO form of [Date.parse]

    A time value is a number of milliseconds since the epoch, as
    ECMA-262 (section "Date Objects") defines it. *)

Module Date.

Definition msPerDay : Z := 86400000.
Definition maxTime : Z := 8640000000000000.

(** [TimeClip] accepts a time value iff it lies in this range. *)
Definition valid (t : Z) : Prop := - maxTime <= t <= maxTime.

Definition Day (t : Z) : Z := t / msPerDay.

Definition DayFromYear (y : Z) : Z :=
  365 * (y - 1970) + (y - 1969) / 4 - (y - 1901) / 100 + (y - 1601) / 400.

Definition InLeapYear (y : Z) : bool :=
  (y mod 4 =? 0) && (negb (y mod 100 =? 0) || (y mod 400 =? 0)).

Definition DaysInYear (y : Z) : Z := if InLeapYear y then 366 else 365.

(** The largest [y] with [DayFromYear y <= d]: an estimate from the
    mean year length, corrected by at most one year. *)
Definition YearFromDay (d : Z) : Z :=
  let y := 1970 + (400 * d) / 146097 in
  if d <? DayFromYear y then y - 1
  else if DayFromYear (y + 1) <=? d then y + 1
  else y.

Definition YearFromTime (t : Z) : Z := YearFromDay (Day t).
Definition DayWithinYear (t : Z) : Z := Day t - DayFromYear (YearFromTime t).

(** Number of days of the year before month [m] (January is 0). *)
Definition MonthStart (leap : bool) (m : Z) : Z :=
  let l := if leap then 1 else 0 in
  match m with
  | 0 => 0 | 1 => 31 | 2 => 59 + l | 3 => 90 + l | 4 => 120 + l
  | 5 => 151 + l | 6 => 181 + l | 7 => 212 + l | 8 => 243 + l
  | 9 => 273 + l | 10 => 304 + l | 11 => 334 + l | _ => 365 + l
  end.

Definition MonthFromDay (leap : bool) (d : Z) : Z :=
  if d <? MonthStart leap 1 then 0
  else if d <? MonthStart leap 2 then 1
  else if d <? MonthStart leap 3 then 2
  else if d <? MonthStart leap 4 then 3
  else if d <? MonthStart leap 5 then 4
  else if d <? MonthStart leap 6 then 5
  else if d <? MonthStart leap 7 then 6
  else if d <? MonthStart leap 8 then 7
  else if d <? MonthStart leap 9 then 8
  else if d <? MonthStart leap 10 then 9
  else if d <? MonthStart leap 11 then 10
  else 11.

Definition MonthFromTime (t : Z) : Z :=
  MonthFromDay (InLeapYear (YearFromTime t)) (DayWithinYear t).

Definition DateFromTime (t : Z) : Z :=
  DayWithinYear t
  - MonthStart (InLeapYear (YearFromTime t)) (MonthFromTime t) + 1.

Definition HourFromTime (t : Z) : Z := (t / 3600000) mod 24.
Definition MinFromTime (t : Z) : Z := (t / 60000) mod 60.
Definition SecFromTime (t : Z) : Z := (t / 1000) mod 60.
Definition msFromTime (t : Z) : Z := t mod 1000.

(** [k] decimal digits of [n], most significant first. *)
Fixpoint pad (k : nat) (n : Z) : string :=
  match k with
  | O => ""
  | S k' => String (JS.chr (48 + (n / 10 ^ Z.of_nat k') mod 10)) (pad k' n)
  end.

Definition year_string (y : Z) : string :=
  if (0 <=? y) && (y <=? 9999) then pad 4 y
  else String (if y <? 0 then "-"%char else "+"%char) (pad 6 (Z.abs y)).

(** [Date.prototype.toISOString]: [YYYY-MM-DDTHH:mm:ss.sssZ], the year
    written with a sign and six digits outside 0..9999. *)
Definition toISOString (t : Z) : string :=
  year_string (YearFromTime t) +:+ "-" +:+ pad 2 (MonthFromTime t + 1)
  +:+ "-" +:+ pad 2 (DateFromTime t)
  +:+ "T" +:+ pad 2 (HourFromTime t)
  +:+ ":" +:+ pad 2 (MinFromTime t)
  +:+ ":" +:+ pad 2 (SecFromTime t)
  +:+ "." +:+ pad 3 (msFromTime t) +:+ "Z".

(** [Date.prototype.toJSON] of a valid date is its [toISOString]. *)
Definition toJSON (t : Z) : string := toISOString t.

(** Reading back: [k] decimal digits, then a fixed character. *)
Fixpoint digits (k : nat) (acc : Z) (s : string) : option (Z * string) :=
  match k with
  | O => Some (acc, s)
  | S k' =>
      match s with
      | String c s' =>
          if JS.is_digit c then digits k' (10 * acc + (JS.code c - 48)) s'
          else None
      | EmptyString => None
      end
  end.

Definition expect (c : ascii) (s : string) : option string :=
  match s with
  | String c' s' => if Ascii.eqb c c' then Some s' else None
  | EmptyString => None
  end.

Definition year (s : string) : option (Z * string) :=
  match s with
  | String "+" s' => digits 6 0 s'
  | String "-" s' =>
      match digits 6 0 s' with
      | Some (y, r) => if y =? 0 then None else Some (- y, r)
      | None => None
      end
  | _ => digits 4 0 s
  end.

Definition MakeDay (y m d : Z) : Z :=
  DayFromYear y + MonthStart (InLeapYear y) m + d - 1.
Definition MakeTime (h mi s ms : Z) : Z :=
  h * 3600000 + mi * 60000 + s * 1000 + ms.
Definition MakeDate (day time : Z) : Z := day * msPerDay + time.

(** [Date.parse] on the complete UTC form of the date-time string
    format (the form [toISOString] writes); the date-only forms, the
    [+HH:mm] offsets and the engine's fallback formats are left out
    (answered [None] here). *)
Definition parse (s : string) : option Z :=
  '(y, s) ← year s;
  s ← expect "-" s;
  '(mo, s) ← digits 2 0 s;
  s ← expect "-" s;
  '(d, s) ← digits 2 0 s;
  s ← expect "T" s;
  '(h, s) ← digits 2 0 s;
  s ← expect ":" s;
  '(mi, s) ← digits 2 0 s;
  s ← expect ":" s;
  '(sec, s) ← digits 2 0 s;
  s ← expect "." s;
  '(ms, s) ← digits 3 0 s;
  s ← expect "Z" s;
  let leap := InLeapYear y in
  if String.eqb s ""
     && (1 <=? mo) && (mo <=? 12)
     && (1 <=? d) && (d <=? MonthStart leap mo - MonthStart leap (mo - 1))
     && (h <=? 23) && (mi <=? 59) && (sec <=? 59)
  then
    let t := MakeDate (MakeDay y (mo - 1) d) (MakeTime h mi sec ms) in
    if (- maxTime <=? t) && (t <=? maxTime) then Some t else None
  else None.

End Date.

(** ** JSON documents, [JSON.stringify] and [JSON.parse] *)

Module JSON.

(** A number keeps its lexeme: its floating-point value plays no part
    in this service. *)
#[local] Set Warnings "-register-all".
Inductive t : Type :=
| Null
| Bool (b : bool)
| Number (lexeme : string)
| Str (s : string)
| Array (items : list t)
| Object (members : list (string * t)).

Definition dquote : ascii := "034".

Definition hex_digit (n : Z) : ascii :=
  if n <? 10 then JS.chr (48 + n) else JS.chr (87 + n).

(** [QuoteJSONString], one character at a time. *)
Definition quote_char (c : ascii) : string :=
  let n := JS.code c in
  if n =? 8 then "\b" else if n =? 9 then "\t" else if n =? 10 then "\n"
  else if n =? 12 then "\f" else if n =? 13 then "\r"
  else if n =? 34 then String "\" (String dquote "") else if n =? 92 then "\\"
  else if n <? 32 then
    "\u00" +:+ String (hex_digit (n / 16)) (String (hex_digit (n mod 16)) "")
  else String c "".

Fixpoint quote_chars (s : string) : string :=
  match s with
  | EmptyString => ""
  | String c s' => quote_char c +:+ quote_chars s'
  end.

Definition quote (s : string) : string :=
  String dquote (quote_chars s +:+ String dquote "").

Fixpoint join (sep : string) (l : list string) : string :=
  match l with
  | [] => ""
  | [x] => x
  | x :: l' => x +:+ sep +:+ join sep l'
  end.

(** [JSON.stringify] without replacer or indentation. *)
Fixpoint stringify (v : t) : string :=
  match v with
  | Null => "null"
  | Bool true => "true"
  | Bool false => "false"
  | Number l => l
  | Str s => quote s
  | Array items => "[" +:+ join "," (map stringify items) +:+ "]"
  | Object members =>
      "{" +:+ join "," (map (fun kv => quote (fst kv) +:+ ":" +:+ stringify (snd kv)) members)
      +:+ "}"
  end.

(** *** Parsing *)

Definition is_ws (c : ascii) : bool :=
  let n := JS.code c in (n =? 32) || (n =? 9) || (n =? 10) || (n =? 13).

Fixpoint skip_ws (s : string) : string :=
  match s with
  | String c s' => if is_ws c then skip_ws s' else s
  | EmptyString => s
  end.

Definition hex_value (c : ascii) : option Z :=
  let n := JS.code c in
  if (48 <=? n) && (n <=? 57) then Some (n - 48)
  else if (65 <=? n) && (n <=? 70) then Some (n - 55)
  else if (97 <=? n) && (n <=? 102) then Some (n - 87)
  else None.

(** The UTF-8 bytes of one UTF-16 code unit. *)
Definition utf8 (u : Z) : string :=
  if u <? 128 then String (JS.chr u) ""
  else if u <? 2048 then
    String (JS.chr (192 + u / 64)) (String (JS.chr (128 + u mod 64)) "")
  else
    String (JS.chr (224 + u / 4096))
      (String (JS.chr (128 + (u / 64) mod 64))
         (String (JS.chr (128 + u mod 64)) "")).

(** The characters of a string literal after its opening quote, up to
    the closing quote. *)
Fixpoint chars (s : string) : option (string * string) :=
  match s with
  | EmptyString => None
  | String c s' =>
      if JS.code c =? 34 then Some ("", s')
      else if JS.code c =? 92 then
        match s' with
        | String e s'' =>
            (* the escapes: quote, backslash, slash, b, f, n, r, t, uXXXX *)
            let simple (x : Z) :=
              '(str, r) ← chars s''; Some (String (JS.chr x) str, r) in
            if JS.code e =? 34 then simple 34            
            else if JS.code e =? 92 then simple 92       
            else if JS.code e =? 47 then simple 47       
            else if JS.code e =? 98 then simple 8        
            else if JS.code e =? 102 then simple 12      
            else if JS.code e =? 110 then simple 10      
            else if JS.code e =? 114 then simple 13      
            else if JS.code e =? 116 then simple 9       
            else if JS.code e =? 117 then                
              match s'' with
              | String h1 (String h2 (String h3 (String h4 s3))) =>
                  a ← hex_value h1; b ← hex_value h2;
                  c ← hex_value h3; d ← hex_value h4;
                  '(str, r) ← chars s3;
                  Some (utf8 (4096 * a + 256 * b + 16 * c + d) +:+ str, r)
              | _ => None
              end
            else None
        | EmptyString => None
        end
      else if JS.code c <? 32 then None
      else '(str, r) ← chars s'; Some (String c str, r)
  end.

Fixpoint span_digits (s : string) : string * string :=
  match s with
  | String c s' =>
      if JS.is_digit c then
        let '(d, r) := span_digits s' in (String c d, r)
      else ("", s)
  | EmptyString => ("", "")
  end.

(** A number token: an optional minus sign, an integer part without
    leading zero, an optional fraction and an optional exponent. *)
Definition number (s : string) : option (string * string) :=
  let '(sign, s1) :=
    match s with String "-" r => ("-", r) | _ => ("", s) end in
  let '(int, s2) := span_digits s1 in
  if String.eqb int "" then None
  else if String.prefix "0" int && negb (String.eqb int "0") then None
  else
    '(frac, s3) ←
      match s2 with
      | String "." r =>
          let '(d, r') := span_digits r in
          if String.eqb d "" then None else Some ("." +:+ d, r')
      | _ => Some ("", s2)
      end;
    '(exp, s4) ←
      match s3 with
      | String e r =>
          if (JS.code e =? 101) || (JS.code e =? 69) then
            let '(sg, r1) :=
              match r with
              | String "+" r' => ("+", r')
              | String "-" r' => ("-", r')
              | _ => ("", r)
              end in
            let '(d, r2) := span_digits r1 in
            if String.eqb d "" then None
            else Some (String e sg +:+ d, r2)
          else Some ("", s3)
      | EmptyString => Some ("", s3)
      end;
    Some (sign +:+ int +:+ frac +:+ exp, s4).

Fixpoint value (fuel : nat) (s : string) {struct fuel} : option (t * string) :=
  match fuel with
  | O => None
  | S fuel' =>
      match skip_ws s with
      | String "{" r =>
          match skip_ws r with
          | String "}" r' => Some (Object [], r')
          | r1 => '(ms, r') ← members fuel' r1; Some (Object ms, r')
          end
      | String "[" r =>
          match skip_ws r with
          | String "]" r' => Some (Array [], r')
          | r1 => '(vs, r') ← elements fuel' r1; Some (Array vs, r')
          end
      | String "034" r => '(str, r') ← chars r; Some (Str str, r')
      | String "t" (String "r" (String "u" (String "e" r))) =>
          Some (Bool true, r)
      | String "f" (String "a" (String "l" (String "s" (String "e" r)))) =>
          Some (Bool false, r)
      | String "n" (String "u" (String "l" (String "l" r))) =>
          Some (Null, r)
      | s1 => '(l, r) ← number s1; Some (Number l, r)
      end
  end
with members (fuel : nat) (s : string) {struct fuel}
  : option (list (string * t) * string) :=
  match fuel with
  | O => None
  | S fuel' =>
      match skip_ws s with
      | String "034" r =>
          '(k, r1) ← chars r;
          match skip_ws r1 with
          | String ":" r2 =>
              '(v, r3) ← value fuel' r2;
              match skip_ws r3 with
              | String "," r4 =>
                  '(ms, r5) ← members fuel' r4; Some ((k, v) :: ms, r5)
              | String "}" r4 => Some ([(k, v)], r4)
              | _ => None
              end
          | _ => None
          end
      | _ => None
      end
  end
with elements (fuel : nat) (s : string) {struct fuel}
  : option (list t * string) :=
  match fuel with
  | O => None
  | S fuel' =>
      '(v, r1) ← value fuel' s;
      match skip_ws r1 with
      | String "," r2 => '(vs, r3) ← elements fuel' r2; Some (v :: vs, r3)
      | String "]" r2 => Some ([v], r2)
      | _ => None
      end
  end.

(** [JSON.parse]: one value, surrounded by white space only. [None]
    stands for the [SyntaxError]. *)
Definition parse (s : string) : option t :=
  '(v, r) ← value (S (String.length s)) s;
  if String.eqb (skip_ws r) "" then Some v else None.

Definition field (k : string) (v : t) : option t :=
  match v with
  | Object ms => snd <$> find (fun kv => String.eqb (fst kv) k) (rev ms)
  | _ => None
  end.

Definition keys (v : t) : list string :=
  match v with Object ms => map fst ms | _ => [] end.

End JSON.

(** ** Small text utilities of the HTTP libraries *)

Module Text.

Definition is_blank (c : ascii) : bool :=
  (JS.code c =? 32) || (JS.code c =? 9).

Fixpoint trim_left (s : string) : string :=
  match s with
  | String c s' => if is_blank c then trim_left s' else s
  | EmptyString => s
  end.

Fixpoint rev_string (s acc : string) : string :=
  match s with
  | String c s' => rev_string s' (String c acc)
  | EmptyString => acc
  end.

Definition trim (s : string) : string :=
  rev_string (trim_left (rev_string (trim_left s) "")) "".

(** [s.split(sep)] for a one-character separator. *)
Fixpoint split (sep : ascii) (s : string) : list string :=
  match s with
  | EmptyString => [""]
  | String c s' =>
      if Ascii.eqb c sep then "" :: split sep s'
      else
        match split sep s' with
        | x :: l => String c x :: l
        | [] => [String c ""]
        end
  end.

Fixpoint count (c : ascii) (s : string) : Z :=
  match s with
  | EmptyString => 0
  | String c' s' => (if Ascii.eqb c c' then 1 else 0) + count c s'
  end.

Definition decimal (n : Z) : string :=
  DecimalString.NilZero.string_of_uint (N.to_uint (Z.to_N n)).

Definition hexadecimal (n : Z) : string :=
  HexadecimalString.NilZero.string_of_uint (N.to_hex_uint (Z.to_N n)).

Definition ends_with_slash (s : string) : bool :=
  match rev_string s "" with
  | String "/" _ => true
  | _ => false
  end.

Definition drop_last (s : string) : string :=
  match rev_string s "" with
  | String _ r => rev_string r ""
  | EmptyString => ""
  end.

End Text.
(** ** HTTP messages, as Node hands them to Express

    [req_method], [req_headers] mirror [req.method] and [req.headers]
    (header names in lower case, as Node stores them); [req_path] and
    [req_query] are the two parts of [req.url] that [parseurl] separates.
    [req_body] is the request entity, the bytes as they were sent.
    zlib is not modelled: for a request with a [gzip] or [deflate]
    content encoding, [req_inflated] says what zlib makes of the entity,
    the inflated bytes or [None] when the entity is not a valid stream
    of that kind. *)

Record Request : Type := {
  req_method : string;
  req_path : string;
  req_query : string;
  req_headers : gmap string string;
  req_body : string;
  req_inflated : option string
}.

(** An error made by [http-errors]. *)
Record HttpError : Type := {
  err_status : Z;
  err_type : string
}.

(** What [finalhandler] writes into its HTML document. *)
Inductive Message : Type :=
| Cannot (method path : string)
| Failure (e : HttpError).

(** A response body: nothing, the bytes the application passed to
    [res.end], or the HTML document of [finalhandler] (whose text for an
    error depends on [NODE_ENV] and on a stack trace, and is kept
    abstract). *)
Inductive Body : Type :=
| NoBody
| Chunk (data : string)
| Document (m : Message).

(** The [res] object while the middleware chain runs, and the response
    once it has ended. Header names are in lower case, as in Node's
    table of outgoing headers. *)
Record Response : Type := {
  statusCode : Z;
  res_headers : gmap string string;
  res_body : Body
}.

(** How a middleware or handler hands over: [next()], [next(err)], or it
    ended the response. *)
Inductive Outcome : Type :=
| Next (res : Response)
| Throw (e : HttpError) (res : Response)
| End (res : Response).

(** What outlives a request in the process: the variables and object
    properties that the code run for one request can write and the code
    run for a later one can read (a variable of the module, a property
    of [app.locals], a global), by name. [req] and [res] are made anew
    for every request. *)
Definition Store : Type := gmap string JS.value.

(** A middleware or a route handler is JavaScript code: besides [req]
    and [res] it can read and write the store. A route handler may also
    read the clock ([new Date()]): its first argument is the time value
    the clock gives while the request is handled. *)
Definition Middleware : Type := Request -> Response -> Store -> Outcome * Store.

Definition Handler : Type := Z -> Request -> Response -> Store -> Outcome * Store.

(** The middlewares of [cors] and [body-parser] are closures over their
    options, which they only read: they decide from [req] and [res]. *)
Definition Decision : Type := Request -> Response -> Outcome.

Definition stateless (decide : Decision) : Middleware :=
  fun req res store => (decide req res, store).

Definition setHeader (k v : string) (res : Response) : Response :=
  {| statusCode := statusCode res;
     res_headers := <[k := v]> (res_headers res);
     res_body := res_body res |}.

Definition removeHeader (k : string) (res : Response) : Response :=
  {| statusCode := statusCode res;
     res_headers := delete k (res_headers res);
     res_body := res_body res |}.

Definition setStatus (n : Z) (res : Response) : Response :=
  {| statusCode := n;
     res_headers := res_headers res;
     res_body := res_body res |}.

Definition endWith (b : Body) (res : Response) : Response :=
  {| statusCode := statusCode res;
     res_headers := res_headers res;
     res_body := b |}.

(** ** The [cors] middleware with its default options

    [{ origin: '*', methods: 'GET,HEAD,PUT,PATCH,POST,DELETE',
       preflightContinue: false, optionsSuccessStatus: 204 }] *)

Module Cors.

(** [vary(res, field)]: append [field] to the Vary header unless it is
    listed already or the header is [*]. *)
Definition vary (field : string) (res : Response) : Response :=
  let header := default "" (res_headers res !! "vary") in
  let listed := map (fun x => JS.toLowerCase (Text.trim x)) (Text.split "," header) in
  if String.eqb header "" then setHeader "vary" field res
  else if existsb (String.eqb "*") listed then setHeader "vary" "*" res
  else if existsb (String.eqb (JS.toLowerCase field)) listed then res
  else setHeader "vary" (header +:+ ", " +:+ field) res.

Definition configureOrigin (res : Response) : Response :=
  setHeader "access-control-allow-origin" "*" res.

Definition configureMethods (res : Response) : Response :=
  setHeader "access-control-allow-methods" "GET,HEAD,PUT,PATCH,POST,DELETE" res.

(** No [allowedHeaders] option: reflect the request's
    [Access-Control-Request-Headers]. *)
Definition configureAllowedHeaders (req : Request) (res : Response) : Response :=
  let res := vary "Access-Control-Request-Headers" res in
  match req_headers req !! "access-control-request-headers" with
  | Some v =>
      if String.eqb v "" then res
      else setHeader "access-control-allow-headers" v res
  | None => res
  end.

(** [corsMiddleware], the function that [cors()] returns. *)
Definition corsMiddleware : Decision := fun req res =>
  if String.eqb (JS.toUpperCase (req_method req)) "OPTIONS" then
    (* preflight *)
    let res := configureOrigin res in
    let res := configureMethods res in
    let res := configureAllowedHeaders req res in
    let res := setStatus 204 res in
    let res := setHeader "content-length" "0" res in
    End (endWith NoBody res)
  else
    (* actual response *)
    Next (configureOrigin res).

(** [cors()] *)
Definition cors : Middleware := stateless corsMiddleware.

End Cors.

(** ** Media types: [media-typer] 0.3 (behind [type-is]) and
    [content-type] 1.0 (behind [getCharset]) *)

Module MediaType.

Definition among (codes : list Z) (c : ascii) : bool :=
  existsb (Z.eqb (JS.code c)) codes.

Definition between (lo hi : Z) (c : ascii) : bool :=
  (lo <=? JS.code c) && (JS.code c <=? hi).

Definition is_alnum (c : ascii) : bool :=
  JS.is_digit c || JS.is_upper c || JS.is_lower c.

(** The characters of a token: letters, digits and
    [! # $ % & ' * + - . ^ _ ` | ~]. *)
Definition is_token (c : ascii) : bool :=
  is_alnum c || among [33; 35; 36; 37; 38; 39; 42; 43; 45; 46; 94; 95; 96; 124; 126] c.

(** What a quoted string may hold as it is, and after a backslash; the
    two packages differ on the vertical tab and on the bytes above
    ASCII. *)
Record Quoting : Type := {
  qtext : ascii -> bool;
  qpair : ascii -> bool
}.

Definition typer_quoting : Quoting :=
  {| qtext c := among [32; 33] c || between 35 91 c || between 93 126 c
                || between 128 255 c;
     qpair c := between 32 126 c |}.

Definition content_type_quoting : Quoting :=
  {| qtext c := among [11; 32; 33] c || between 35 91 c || between 93 126 c
                || between 128 255 c;
     qpair c := among [11] c || between 32 255 c |}.

Fixpoint skip_spaces (s : string) : string :=
  match s with
  | String " " s' => skip_spaces s'
  | _ => s
  end.

(** A quoted string after its opening quote: its value with the
    escapes removed, and what follows the closing quote. *)
Fixpoint quoted (q : Quoting) (s : string) : option (string * string) :=
  match s with
  | EmptyString => None
  | String c s' =>
      if JS.code c =? 34 then Some ("", s')
      else if JS.code c =? 92 then
        match s' with
        | String e s'' =>
            if qpair q e then '(v, r) ← quoted q s''; Some (String e v, r)
            else None
        | EmptyString => None
        end
      else if qtext q c then '(v, r) ← quoted q s'; Some (String c v, r)
      else None
  end.

(** One match of the parameter pattern at the start of [s]:
    a semicolon, a token, an equals sign, a token or a quoted string,
    with spaces allowed around each. *)
Definition parameter (q : Quoting) (s : string)
  : option ((string * string) * string) :=
  match s with
  | String ";" r =>
      let '(k, r1) := JS.span is_token (skip_spaces r) in
      if String.eqb k "" then None
      else
        match skip_spaces r1 with
        | String "=" r2 =>
            match skip_spaces r2 with
            | String "034" r3 =>
                '(v, r4) ← quoted q r3;
                Some ((JS.toLowerCase k, v), skip_spaces r4)
            | r3 =>
                let '(v, r4) := JS.span is_token r3 in
                if String.eqb v "" then None
                else Some ((JS.toLowerCase k, v), skip_spaces r4)
            end
        | _ => None
        end
  | _ => None
  end.

(** The parameters from the first semicolon to the end of the header;
    [None] is the TypeError [invalid parameter format]. *)
Fixpoint parameters (q : Quoting) (fuel : nat) (s : string)
  : option (list (string * string)) :=
  match s with
  | EmptyString => Some []
  | _ =>
      match fuel with
      | O => None
      | S fuel' =>
          '(kv, r) ← parameter q s;
          ps ← parameters q fuel' r;
          Some (kv :: ps)
      end
  end.

(** The header split at its first semicolon (which stays with the
    second part). *)
Fixpoint cut (s : string) : string * string :=
  match s with
  | EmptyString => ("", "")
  | String c s' =>
      if Ascii.eqb c ";" then ("", s)
      else let '(a, b) := cut s' in (String c a, b)
  end.

Definition is_name_char (c : ascii) : bool :=
  is_alnum c || among [33; 35; 36; 38; 94; 95; 45] c.

(** [typeNameRegExp] and [subtypeNameRegExp]: a letter or digit, then up
    to 126 more characters of the class. *)
Definition name_ok (more : ascii -> bool) (s : string) : bool :=
  match s with
  | String c s' =>
      is_alnum c && JS.all_chars more s' && (JS.len s' <=? 126)
  | EmptyString => false
  end.

(** The part of [s] before and after its last [+]. *)
Fixpoint cut_suffix (s : string) : string * option string :=
  match s with
  | EmptyString => ("", None)
  | String c s' =>
      match cut_suffix s' with
      | (a, Some b) => (String c a, Some b)
      | (a, None) =>
          if Ascii.eqb c "+" then ("", Some a) else (String c a, None)
      end
  end.

(** [typer.parse] followed by [typer.format] without the parameters, as
    [type-is] normalizes a Content-Type: the media type in lower case,
    or [None] when [media-typer] throws. *)
Definition normalizeType (value : string) : option string :=
  let '(type, rest) := cut value in
  let '(name, r1) := JS.span is_name_char (skip_spaces (JS.toLowerCase type)) in
  match r1 with
  | String "/" r2 =>
      let '(sub, r3) :=
        JS.span (fun c => is_name_char c || among [46; 43] c) r2 in
      if name_ok is_name_char name
         && name_ok (fun c => is_name_char c || among [46; 43] c) sub
         && String.eqb (skip_spaces r3) ""
      then
        _ ← parameters typer_quoting (String.length rest) rest;
        let '(subtype, suffix) := cut_suffix sub in
        if name_ok (fun c => is_name_char c || among [46] c) subtype then
          match suffix with
          | None | Some EmptyString => Some (name +:+ "/" +:+ subtype)
          | Some x =>
              if name_ok is_name_char x
              then Some (name +:+ "/" +:+ subtype +:+ "+" +:+ x)
              else None
          end
        else None
      else None
  | _ => None
  end.

(** [contentType.parse]: the parameters of a Content-Type, or [None]
    when it throws. *)
Definition parse (header : string) : option (list (string * string)) :=
  let '(type, rest) := cut header in
  let '(a, r1) := JS.span is_token (JS.trim JS.latin1_space type) in
  match r1 with
  | String "/" r2 =>
      if negb (String.eqb a "") && negb (String.eqb r2 "")
         && JS.all_chars is_token r2
      then parameters content_type_quoting (String.length rest) rest
      else None
  | _ => None
  end.

(** [parameters[key]] after the assignments in order: the last one. *)
Definition last_parameter (key : string) (ps : list (string * string))
  : option string :=
  snd <$> find (fun kv => String.eqb (fst kv) key) (rev ps).

End MediaType.

(** ** The encodings [iconv-lite] 0.4 knows, among those the JSON parser
    lets through (names that start with [utf-]) *)

Module Iconv.

Definition is_lower_alnum (c : ascii) : bool := JS.is_digit c || JS.is_lower c.

(** [_canonicalizeEncoding]: lower case, without a year suffix of a
    colon and four digits, and without anything but letters and
    digits. *)
Fixpoint strip (s : string) : string :=
  match s with
  | EmptyString => ""
  | String c s' =>
      if Ascii.eqb c ":" && (String.length s' =? 4)%nat && JS.all_chars JS.is_digit s'
      then ""
      else if is_lower_alnum c then String c (strip s')
      else strip s'
  end.

Definition canonicalize (encoding : string) : string :=
  strip (JS.toLowerCase encoding).

(** [encodingExists] for a name that starts with [utf-]. *)
Definition encodingExists (encoding : string) : bool :=
  existsb (String.eqb (canonicalize encoding))
          ["utf8"; "utf16le"; "utf16be"; "utf16"; "utf7"; "utf7imap"].

(** The byte order mark, which the decoders drop from the start of the
    text. *)
Definition stripBOM (text : string) : string :=
  default text (JS.strip_prefix (JS.of_codes [239; 187; 191]) text).

(** UTF-16 to UTF-8, code unit by code unit; a last odd byte is
    dropped. *)
Fixpoint utf16 (big : bool) (s : string) : string :=
  match s with
  | String a (String b r) =>
      JSON.utf8 (if big then 256 * JS.code a + JS.code b
                 else JS.code a + 256 * JS.code b)
      +:+ utf16 big r
  | _ => ""
  end.

(** [detectEncoding] counts, over the first [n] pairs of bytes, those
    that are an ASCII character in little-endian and in big-endian
    order. *)
Fixpoint ascii_pairs (n : nat) (s : string) : Z * Z :=
  match n, s with
  | S n', String a (String b r) =>
      let '(le, be) := ascii_pairs n' r in
      (le + (if negb (JS.code a =? 0) && (JS.code b =? 0) then 1 else 0),
       be + (if (JS.code a =? 0) && negb (JS.code b =? 0) then 1 else 0))
  | _, _ => (0, 0)
  end.

(** The byte order of an entity labelled [utf-16]: that of its byte
    order mark, or else the one that makes more ASCII characters of the
    first 64 bytes (little-endian on a draw). The package looks at the
    bytes that have arrived when there are 16 of them; the entity is
    taken to arrive at once. *)
Definition big_endian (s : string) : bool :=
  match s with
  | String a (String b _) =>
      if (JS.code a =? 254) && (JS.code b =? 255) then true
      else if (JS.code a =? 255) && (JS.code b =? 254) then false
      else let '(le, be) := ascii_pairs 32 s in le <? be
  | _ => false
  end.

(** A unit of the modified base64 of UTF-7: its six bits. *)
Definition sextet (imap : bool) (c : ascii) : option Z :=
  let n := JS.code c in
  if JS.is_upper c then Some (n - 65)
  else if JS.is_lower c then Some (n - 71)
  else if JS.is_digit c then Some (n + 4)
  else if n =? 43 then Some 62
  else if n =? (if imap then 44 else 47) then Some 63
  else None.

(** The bytes that a run of sextets holds: [bits] are those not yet
    made into a byte, [count] many. *)
Fixpoint unbase64 (bits count : Z) (l : list Z) : list Z :=
  match l with
  | [] => []
  | x :: l' =>
      let bits := 64 * bits + x in
      let count := count + 6 in
      if 8 <=? count
      then (bits / 2 ^ (count - 8)) :: unbase64 (bits mod 2 ^ (count - 8)) (count - 8) l'
      else unbase64 bits count l'
  end.

(** UTF-7: text as it is up to the shift character ([+], or [&] in the
    IMAP variant), then base64 of UTF-16 up to a character that is not
    of the base64 alphabet; a minus sign that ends the base64 is
    absorbed, and the shift character followed by a minus sign is the
    shift character. A byte above ASCII in direct text becomes the
    replacement character. [run] is the base64 read so far, in reverse,
    when in base64. *)
Fixpoint utf7 (imap : bool) (run : option (list Z)) (s : string) : string :=
  let flush (l : list Z) :=
    utf16 true (JS.of_codes (unbase64 0 0 (rev l))) in
  match s with
  | EmptyString => match run with Some l => flush l | None => "" end
  | String c r =>
      match run with
      | None =>
          if JS.code c =? (if imap then 38 else 43) then utf7 imap (Some []) r
          else if 128 <=? JS.code c
          then JS.of_codes [239; 191; 189] +:+ utf7 imap None r
          else String c (utf7 imap None r)
      | Some l =>
          match sextet imap c with
          | Some x => utf7 imap (Some (x :: l)) r
          | None =>
              let shift := String (if imap then "&" else "+")%char "" in
              if JS.code c =? 45 then
                (match l with [] => shift | _ => flush l end) +:+ utf7 imap None r
              else
                flush l +:+
                (if JS.code c =? (if imap then 38 else 43) then utf7 imap (Some []) r
                 else if 128 <=? JS.code c
                 then JS.of_codes [239; 191; 189] +:+ utf7 imap None r
                 else String c (utf7 imap None r))
          end
      end
  end.

(** [iconv.decode]: the text of the entity in UTF-8, without a byte
    order mark. *)
Definition decode (charset : string) (entity : string) : string :=
  let name := canonicalize charset in
  stripBOM
    (if String.eqb name "utf16le" then utf16 false entity
     else if String.eqb name "utf16be" then utf16 true entity
     else if String.eqb name "utf16" then utf16 (big_endian entity) entity
     else if String.eqb name "utf7" then utf7 false None entity
     else if String.eqb name "utf7imap" then utf7 true None entity
     else entity).

End Iconv.

(** ** [qs]: how deep the keys of a form nest *)

Module Qs.

(** [%5B] and [%5D] become brackets before anything else. *)
Fixpoint brackets (s : string) : string :=
  match s with
  | String "%" (String "5" (String x r as rest)) =>
      if (JS.code x =? 66) || (JS.code x =? 98) then String "[" (brackets r)
      else if (JS.code x =? 68) || (JS.code x =? 100) then String "]" (brackets r)
      else String "%" (String "5" (brackets rest))
  | String c r => String c (brackets r)
  | EmptyString => ""
  end.

(** The key of one part: up to the equals sign that follows the first
    closing bracket directly, or else up to the first equals sign. *)
Fixpoint upto_bracket_equals (s : string) : option string :=
  match s with
  | String "]" (String "=" _) => Some "]"
  | String c r => String c <$> upto_bracket_equals r
  | EmptyString => None
  end.

Fixpoint upto_equals (s : string) : string :=
  match s with
  | String "=" _ => ""
  | String c r => String c (upto_equals r)
  | EmptyString => ""
  end.

Definition key (part : string) : string :=
  match upto_bracket_equals part with
  | Some k => k
  | None => upto_equals part
  end.

(** The number of bracket segments of a key: an opening bracket, no
    bracket in between, a closing bracket. [opened] says that the last
    bracket seen was an opening one. *)
Fixpoint segments (opened : bool) (s : string) : Z :=
  match s with
  | EmptyString => 0
  | String c r =>
      if Ascii.eqb c "[" then segments true r
      else if Ascii.eqb c "]" then (if opened then 1 else 0) + segments false r
      else segments opened r
  end.

(** With [depth: 32] and [strictDepth: true], [qs.parse] throws a
    RangeError when a key has more segments than that. *)
Definition too_deep (body : string) : bool :=
  existsb (fun part => 32 <? segments false (key part))
          (Text.split "&" (brackets body)).

End Qs.

(** ** The [body-parser] middlewares (1.20.3), default options

    [req.body] is assigned by a successful parse; no layer of this
    application reads it, so the parsed value is not carried along. The
    URL-encoded parser skips a request that the JSON parser has read
    ([req._body]); such a request has the JSON media type, which the
    URL-encoded parser skips anyway. *)

Module BodyParser.

(** ['100kb'] *)
Definition limit : Z := 102400.
Definition parameterLimit : Z := 1000.

(** [typeis.hasBody]: a Transfer-Encoding header, or a Content-Length
    that is a number. *)
Definition hasBody (req : Request) : bool :=
  match req_headers req !! "transfer-encoding" with
  | Some _ => true
  | None =>
      match req_headers req !! "content-length" with
      | Some v => negb (JS.isNaN (JS.Number JS.latin1_space v))
      | None => false
      end
  end.

(** [typeis(req, type)] for a full media type. *)
Definition typeis (req : Request) (type : string) : bool :=
  hasBody req &&
  match req_headers req !! "content-type" with
  | Some v =>
      match MediaType.normalizeType v with
      | Some t => String.eqb t type
      | None => false
      end
  | None => false
  end.

(** [getCharset(req) || 'utf-8']: the last charset parameter of the
    Content-Type in lower case; [utf-8] when there is none, when it is
    empty, or when the header does not parse. *)
Definition getCharset (req : Request) : string :=
  match req_headers req !! "content-type" ≫= MediaType.parse with
  | Some ps =>
      match MediaType.last_parameter "charset" ps with
      | Some c => if String.eqb c "" then "utf-8" else JS.toLowerCase c
      | None => "utf-8"
      end
  | None => "utf-8"
  end.

Definition error (status : Z) (type : string) : HttpError :=
  {| err_status := status; err_type := type |}.

(** The length [raw-body] expects: the Content-Length of an entity that
    is sent as it is, [parseInt]ed ([Some None] is NaN). *)
Definition expected_length (req : Request) (encoding : string)
  : option (option Z) :=
  if String.eqb encoding "identity" then
    match req_headers req !! "content-length" with
    | Some v =>
        if JS.isNaN (JS.Number JS.latin1_space v) then None
        else Some (JS.parseInt JS.latin1_space v)
    | None => None
    end
  else None.

(** [read]: the content encoding must be known; then [raw-body] checks
    the announced length against the limit, asks iconv-lite for the
    decoder of the charset, reads the entity (which zlib inflates) within
    the limit and compares its length with the announced one; the
    decoded text goes to [parse]. An error of zlib has no [type]. *)
Definition read (parse : string -> option HttpError) (charset : string)
  : Decision := fun req res =>
  let encoding :=
    JS.toLowerCase
      (match req_headers req !! "content-encoding" with
       | Some v => if String.eqb v "" then "identity" else v
       | None => "identity"
       end) in
  let length := expected_length req encoding in
  let stream :=
    if String.eqb encoding "identity" then Some (req_body req)
    else req_inflated req in
  if negb (String.eqb encoding "identity" || String.eqb encoding "gzip"
           || String.eqb encoding "deflate")
  then Throw (error 415 "encoding.unsupported") res
  else if match length with Some (Some n) => limit <? n | _ => false end
  then Throw (error 413 "entity.too.large") res
  else if negb (Iconv.encodingExists charset)
  then Throw (error 415 "charset.unsupported") res
  else
    match stream with
    | None => Throw (error 400 "") res
    | Some entity =>
        if limit <? JS.len entity
        then Throw (error 413 "entity.too.large") res
        else if match length with
                | Some (Some n) => negb (n =? JS.len entity)
                | Some None => true
                | None => false
                end
        then Throw (error 400 "request.size.invalid") res
        else
          match parse (Iconv.decode charset entity) with
          | Some e => Throw e res
          | None => Next res
          end
    end.

(** The first character that is not white space. *)
Definition firstchar (s : string) : option ascii :=
  match JSON.skip_ws s with
  | String c _ => Some c
  | EmptyString => None
  end.

(** The [parse] function of [json()], strict mode. *)
Definition json_parse (text : string) : option HttpError :=
  if String.eqb text "" then None
  else
    match firstchar text with
    | Some "{"%char | Some "["%char =>
        match JSON.parse text with
        | Some _ => None
        | None => Some (error 400 "entity.parse.failed")
        end
    | _ => Some (error 400 "entity.parse.failed")
    end.

(** [jsonParser], the function that [bodyParser.json()] returns. *)
Definition jsonParser : Decision := fun req res =>
  if negb (hasBody req) then Next res
  else if negb (typeis req "application/json") then Next res
  else
    let charset := getCharset req in
    if negb (String.prefix "utf-" charset)
    then Throw (error 415 "charset.unsupported") res
    else read json_parse charset req res.

(** [bodyParser.json()] *)
Definition json : Middleware := stateless jsonParser.

(** The [parse] function of [urlencoded({ extended: true })]: the
    number of parameters and the depth of the keys are bounded; [qs]
    accepts every other text. *)
Definition urlencoded_parse (text : string) : option HttpError :=
  if parameterLimit <=? Text.count "&" text
  then Some (error 413 "parameters.too.many")
  else if Qs.too_deep text
  then Some (error 400 "querystring.parse.rangeError")
  else None.

(** [urlencodedParser], the function that
    [bodyParser.urlencoded({ extended: true })] returns. *)
Definition urlencodedParser : Decision := fun req res =>
  if negb (hasBody req) then Next res
  else if negb (typeis req "application/x-www-form-urlencoded") then Next res
  else
    let charset := getCharset req in
    if negb (String.eqb charset "utf-8")
    then Throw (error 415 "charset.unsupported") res
    else read urlencoded_parse charset req res.

(** [bodyParser.urlencoded({ extended: true })] *)
Definition urlencoded : Middleware := stateless urlencodedParser.

End BodyParser.

(** ** [finalhandler]: the reply when the chain ends without a response *)

Module Finalhandler.

Definition in_error_range (n : Z) : bool := (400 <=? n) && (n <? 600).

(** [getErrorStatusCode], then [getResponseStatusCode]. *)
Definition status (err : option HttpError) (res : Response) : Z :=
  match err with
  | None => 404
  | Some e =>
      if in_error_range (err_status e) then err_status e
      else if in_error_range (statusCode res) then statusCode res
      else 500
  end.

Definition message (err : option HttpError) (req : Request) : Message :=
  match err with
  | None => Cannot (req_method req) (req_path req)
  | Some e => Failure e
  end.

(** [send]: the headers set so far stay, except the three content
    headers; the Content-Length of the document is not tracked. *)
Definition finalhandler (err : option HttpError) (req : Request) (res : Response)
  : Response :=
  let res := setStatus (status err res) res in
  let res := removeHeader "content-encoding" res in
  let res := removeHeader "content-language" res in
  let res := removeHeader "content-range" res in
  let res := setHeader "content-security-policy" "default-src 'none'" res in
  let res := setHeader "x-content-type-options" "nosniff" res in
  let res := setHeader "content-type" "text/html; charset=utf-8" res in
  if String.eqb (req_method req) "HEAD" then endWith NoBody res
  else endWith (Document (message err req)) res.

End Finalhandler.

(** ** Express: responses, routing *)

Module Express.

(** The [etag] package, weak form (the default ['etag'] setting). *)
Definition etag (entity : string) : string :=
  let tag :=
    if String.eqb entity "" then "0-2jmj7l5rSw0yVb/vlWAYkK/YBwk"
    else
      Text.hexadecimal (JS.len entity) +:+ "-"
      +:+ String.substring 0 27 (Base64.encode (Sha1.digest (JS.bytes entity))) in
  "W/" +:+ String JSON.dquote (tag +:+ String JSON.dquote "").

Fixpoint trim_spaces_left (s : string) : string :=
  match s with
  | String " " s' => trim_spaces_left s'
  | _ => s
  end.

(** [parseTokenList] of the [fresh] package. *)
Definition parseTokenList (s : string) : list string :=
  map (fun x => Text.rev_string
                  (trim_spaces_left (Text.rev_string (trim_spaces_left x) "")) "")
      (Text.split "," s).

(** A [no-cache] directive in Cache-Control. *)
Definition no_cache (v : string) : bool :=
  existsb (fun x => String.eqb (Text.trim x) "no-cache") (Text.split "," v).

(** [fresh(reqHeaders, resHeaders)]. No layer of this application sets
    Last-Modified, so an If-Modified-Since condition is always stale. *)
Definition fresh (reqHeaders : gmap string string) (etag : option string) : bool :=
  let modifiedSince := default "" (reqHeaders !! "if-modified-since") in
  let noneMatch := default "" (reqHeaders !! "if-none-match") in
  if String.eqb modifiedSince "" && String.eqb noneMatch "" then false
  else if no_cache (default "" (reqHeaders !! "cache-control")) then false
  else if negb (String.eqb noneMatch "") && negb (String.eqb noneMatch "*")
          && match etag with
             | None => true
             | Some tag =>
                 negb (existsb (fun m => String.eqb m tag
                                         || String.eqb m ("W/" +:+ tag)
                                         || String.eqb ("W/" +:+ m) tag)
                               (parseTokenList noneMatch))
             end
  then false
  else if negb (String.eqb modifiedSince "") then false
  else true.

(** [req.fresh] *)
Definition req_fresh (req : Request) (res : Response) : bool :=
  if negb (String.eqb (req_method req) "GET" || String.eqb (req_method req) "HEAD")
  then false
  else if ((200 <=? statusCode res) && (statusCode res <? 300))
          || (statusCode res =? 304)
  then fresh (req_headers req) (res_headers res !! "etag")
  else false.

Definition defaultHeader (k v : string) (res : Response) : Response :=
  match res_headers res !! k with
  | Some _ => res
  | None => setHeader k v res
  end.

(** [res.send(chunk)] for a string [chunk]. The Content-Type is the
    default [text/html; charset=utf-8] unless one is set ([res.json]
    sets its own before calling [send]); both defaults carry the charset
    that [send] would add. The status is 200 or 304 here, so the special
    case of recent versions for status 205 is left out. *)
Definition send (req : Request) (chunk : string) (res : Response) : Response :=
  let res := defaultHeader "content-type" "text/html; charset=utf-8" res in
  (* populate Content-Length and ETag *)
  let generateETag :=
    match res_headers res !! "etag" with Some _ => false | None => true end in
  let res := setHeader "content-length" (Text.decimal (JS.len chunk)) res in
  let res := if generateETag then setHeader "etag" (etag chunk) res else res in
  (* freshness *)
  let res := if req_fresh req res then setStatus 304 res else res in
  (* strip irrelevant headers *)
  let stripped := (statusCode res =? 204) || (statusCode res =? 304) in
  let res :=
    if stripped then
      removeHeader "transfer-encoding"
        (removeHeader "content-length" (removeHeader "content-type" res))
    else res in
  let chunk := if stripped then "" else chunk in
  if String.eqb (req_method req) "HEAD" then endWith NoBody res
  else endWith (Chunk chunk) res.

(** [res.json(obj)] *)
Definition json (req : Request) (obj : JSON.t) (res : Response) : Response :=
  let body := JSON.stringify obj in
  let res := defaultHeader "content-type" "application/json; charset=utf-8" res in
  send req body res.

(** One entry of the router's stack: [app.use(fn)] or
    [app.METHOD(path, handler)] ([method] in lower case). *)
Inductive Layer : Type :=
| Use (fn : Middleware)
| Route (method : string) (path : string) (handler : Handler).

(** [Layer.match] for a route whose path has no parameter or wildcard:
    the regular expression [path-to-regexp] builds with [end: true],
    [strict: false] and [sensitive: false] accepts the path itself in
    any letter case, with or without one trailing slash. *)
Definition match_path (pattern path : string) : bool :=
  let pat := JS.toLowerCase pattern in
  let p := JS.toLowerCase path in
  if Text.ends_with_slash pat
  then String.eqb p pat || String.eqb p (Text.drop_last pat)
  else String.eqb p pat || String.eqb p (pat +:+ "/").

(** [Route.prototype._handles_method]: a route for GET also takes HEAD. *)
Definition handles_method (route_method : string) (method : string) : bool :=
  let name := JS.toLowerCase method in
  let name :=
    if String.eqb name "head" && negb (String.eqb route_method "head")
    then "get" else name in
  String.eqb name route_method.

(** [router.handle]: the layers in the order of registration, each with
    the store as the one before left it. No layer of this application
    takes an error, so [next(err)] goes straight to [finalhandler]. (The
    router's own reply to OPTIONS is never reached here: [cors] ends
    every OPTIONS request.) *)
Fixpoint run (stack : list Layer) (now : Z) (req : Request) (res : Response)
  (store : Store) : Response * Store :=
  match stack with
  | [] => (Finalhandler.finalhandler None req res, store)
  | Use fn :: rest =>
      match fn req res store with
      | (Next res', store') => run rest now req res' store'
      | (Throw e res', store') => (Finalhandler.finalhandler (Some e) req res', store')
      | (End res', store') => (res', store')
      end
  | Route m p handler :: rest =>
      if match_path p (req_path req) && handles_method m (req_method req)
      then
        match handler now req res store with
        | (Next res', store') => run rest now req res' store'
        | (Throw e res', store') =>
            (Finalhandler.finalhandler (Some e) req res', store')
        | (End res', store') => (res', store')
        end
      else run rest now req res store
  end.

(** A response before any layer ran, and [expressInit]. *)
Definition fresh_response : Response :=
  {| statusCode := 200; res_headers := ∅; res_body := NoBody |}.

Definition expressInit (res : Response) : Response :=
  setHeader "x-powered-by" "Express" res.

(** The application object: its router's stack, which [app.use] and
    [app.get] extend at the end. *)
Record App : Type := {
  stack : list Layer
}.

(** [express()] *)
Definition express : App := {| stack := [] |}.

(** [app.use(fn)] *)
Definition use (fn : Middleware) (app : App) : App :=
  {| stack := stack app ++ [Use fn] |}.

(** [app.get(path, handler)] *)
Definition get (path : string) (handler : Handler) (app : App) : App :=
  {| stack := stack app ++ [Route "get" path handler] |}.

(** [app.handle]: the response, and the store as the layers leave it. *)
Definition handle (app : App) (now : Z) (req : Request) (store : Store)
  : Response * Store :=
  run (stack app) now req (expressInit fresh_response) store.

End Express.

(** ** [net.Server.listen]: what the argument of [app.listen] makes the
    server listen on *)

Module Net.

Inductive Binding : Type :=
| Port (n : Z)          (* the TCP port [n], from 1 to 65535 *)
| AnyPort               (* port 0: a free port that the system picks *)
| Path (p : string)     (* a pipe or UNIX domain socket of that name *)
| Throws.               (* ERR_SOCKET_BAD_PORT: the server never listens *)

(** [isPipeName]: a string that [toNumber] does not take for a number
    that is at least zero. *)
Definition isPipeName (v : JS.value) : bool :=
  match v with
  | JS.Str s => negb (JS.ge_zero (JS.Number JS.utf8_space s))
  | _ => false
  end.

(** [validatePort]: a number or a string that is not blank and whose
    Number is an integer from 0 to 65535. *)
Definition validatePort (v : JS.value) : option Z :=
  match v with
  | JS.Num n => if (0 <=? n) && (n <=? 65535) then Some n else None
  | JS.Str s =>
      if String.eqb (JS.trim JS.utf8_space s) "" then None
      else JS.integer_upto 65535 (JS.Number JS.utf8_space s)
  | JS.Undefined => None
  end.

(** [server.listen(arg, callback)] for an argument that is a string, a
    number or [undefined]. Whether the system grants the port (it may be
    in use or reserved) is not part of this. *)
Definition listen (arg : JS.value) : Binding :=
  match arg with
  | JS.Undefined => AnyPort
  | _ =>
      if isPipeName arg then
        match arg with JS.Str s => Path s | _ => Throws end
      else
        match validatePort arg with
        | Some 0 => AnyPort
        | Some n => Port n
        | None => Throws
        end
  end.

End Net.

(** * [backend/server.js] *)

(** [const PORT = process.env.PORT || 3000;] *)
Definition PORT (env : gmap string string) : JS.value :=
  JS.or (match env !! "PORT" with Some v => JS.Str v | None => JS.Undefined end)
        (JS.Num 3000).

(** [app.get('/', (req, res) => { res.send('Welcome to the Backend API!'); });]
    The handler calls [res.send] and nothing else: the store stays as
    it is. *)
Definition root_handler : Handler := fun now req res store =>
  (End (Express.send req "Welcome to the Backend API!" res), store).

(** The object literal of the second handler. *)
Record SampleData : Type := {
  message : string;
  timestamp : Z
}.

(** [new Date()]: the date whose time value is the clock's reading. *)
Definition new_Date (now : Z) : Z := now.

(** [JSON.stringify] reads the own properties in the order they were
    written and calls [toJSON] on the date. *)
Definition SampleData_json (d : SampleData) : JSON.t :=
  JSON.Object [("message", JSON.Str (message d));
               ("timestamp", JSON.Str (Date.toJSON (timestamp d)))].

(** [app.get('/api/data', (req, res) => { ... res.json(sampleData); });]
    [sampleData] is a constant of the call; the handler writes to
    nothing but [res]. *)
Definition data_handler : Handler := fun now req res store =>
  let sampleData :=
    {| message := "This is some sample data from the backend!";
       timestamp := new_Date now |} in
  (End (Express.json req (SampleData_json sampleData) res), store).

(** The application object after the registrations of [server.js], in
    their order. [app_with] leaves open the two middlewares that
    body-parser supplies and the two handlers. *)
Definition app_with (json urlencoded : Middleware) (h_root h_data : Handler)
  : Express.App :=
  let app := Express.express in                      (* const app = express(); *)
  let app := Express.use Cors.cors app in            (* app.use(cors()); *)
  let app := Express.use json app in                 (* app.use(bodyParser.json()); *)
  let app := Express.use urlencoded app in
                                   (* app.use(bodyParser.urlencoded({ extended: true })); *)
  let app := Express.get "/" h_root app in           (* app.get('/', ...); *)
  let app := Express.get "/api/data" h_data app in   (* app.get('/api/data', ...); *)
  app.

Definition app : Express.App :=
  app_with BodyParser.json BodyParser.urlencoded root_handler data_handler.

(** The response of the application of [server.js] to [req] when the
    clock reads [now] and the store is [store], with [json] and
    [urlencoded] for the two middlewares of body-parser. *)
Definition respond (json urlencoded : Middleware) (now : Z) (req : Request)
  (store : Store) : Response :=
  fst (Express.handle (app_with json urlencoded root_handler data_handler)
                      now req store).

(** The service: the response to [req] when the clock reads [now], in a
    process that has just started. *)
Definition serve (now : Z) (req : Request) : Response :=
  fst (Express.handle app now req ∅).

(** [ToString] of the values [PORT] can take. *)
Definition to_string (v : JS.value) : string :=
  match v with
  | JS.Undefined => "undefined"
  | JS.Str s => s
  | JS.Num n => if n <? 0 then "-" +:+ Text.decimal (- n) else Text.decimal n
  end.

(** [app.listen(PORT, () => { console.log(`Server is running on
    http://localhost:${PORT}`); })]: the line the callback logs once the
    server listens. *)
Definition startup_log (env : gmap string string) : string :=
  "Server is running on http://localhost:" +:+ to_string (PORT env).

(** The running process after [app.listen(PORT, ...)]: what the server
    listens on, the application, and the store. *)
Record Server : Type := {
  binding : Net.Binding;
  listen_app : Express.App;
  store : Store
}.

(** [server.js] declares no variable that a request could write to: the
    store is empty when the process starts. *)
Definition listen (env : gmap string string) : Server :=
  {| binding := Net.listen (PORT env); listen_app := app; store := ∅ |}.

(** One request/response cycle of the running process: the layers run
    on the store of the process and leave it as they made it. A
    sequence of cycles; each request comes with the clock's reading
    while it is handled. *)
Definition cycle (s : Server) (now : Z) (req : Request) : Server * Response :=
  let '(res, store') := Express.handle (listen_app s) now req (store s) in
  ({| binding := binding s; listen_app := listen_app s; store := store' |}, res).

Fixpoint cycles (s : Server) (reqs : list (Z * Request)) : Server * list Response :=
  match reqs with
  | [] => (s, [])
  | (now, req) :: rest =>
      let '(s1, r) := cycle s now req in
      let '(s2, rs) := cycles s1 rest in
      (s2, r :: rs)
  end.

(** ** Vocabulary of the statements *)

(** A middleware passes a request on: it calls [next()] and leaves
    [res] and the store as they were. It fails it with [e]: it calls
    [next(e)] likewise. *)
Definition passes (mw : Middleware) (req : Request) : Prop :=
  forall res store, mw req res store = (Next res, store).

Definition fails (mw : Middleware) (req : Request) (e : HttpError) : Prop :=
  forall res store, mw req res store = (Throw e res, store).

(** The two body parsers, in their order, accept the request, or
    reject it with [e]. *)
Definition accepted (json urlencoded : Middleware) (req : Request) : Prop :=
  passes json req /\ passes urlencoded req.

Definition rejected (json urlencoded : Middleware) (req : Request)
  (e : HttpError) : Prop :=
  fails json req e \/ (passes json req /\ fails urlencoded req e).

(** The error with which the model of body-parser rejects a request,
    if it does. *)
Definition body_error (req : Request) : option HttpError :=
  match BodyParser.jsonParser req Express.fresh_response with
  | Throw e _ => Some e
  | _ =>
      match BodyParser.urlencodedParser req Express.fresh_response with
      | Throw e _ => Some e
      | _ => None
      end
  end.

(** The statuses of the errors that body-parser makes. *)
Definition client_error (e : HttpError) : Prop :=
  err_status e = 400 \/ err_status e = 413 \/ err_status e = 415.

(** The request is a conditional request that [res.send] answers with
    304 for the entity [chunk]. *)
Definition not_modified (req : Request) (chunk : string) : bool :=
  Express.fresh (req_headers req) (Some (Express.etag chunk)).

(** [req.fresh] in [res.send]: only a GET or HEAD request is answered
    304. *)
Definition revalidated (req : Request) (chunk : string) : bool :=
  (String.eqb (req_method req) "GET" || String.eqb (req_method req) "HEAD")
  && not_modified req chunk.

(** What [cors] and [expressInit] have set when the later layers run. *)
Definition after_cors : Response :=
  Cors.configureOrigin (Express.expressInit Express.fresh_response).

Definition welcome : string := "Welcome to the Backend API!".

Definition sample_message : string := "This is some sample data from the backend!".

Definition sample_document (now : Z) : JSON.t :=
  JSON.Object [("message", JSON.Str sample_message);
               ("timestamp", JSON.Str (Date.toISOString now))].


(** The shape [YYYY-MM-DDTHH:mm:ss.sssZ], the year possibly written as a
    sign and six digits: UTC, millisecond precision. *)
Definition skip_year (s : string) : option string :=
  match s with
  | String "+" r | String "-" r => snd <$> Date.digits 6 0 r
  | _ => snd <$> Date.digits 4 0 s
  end.

Definition iso_fields (s : string) : bool :=
  match
    r ← skip_year s;
    r ← Date.expect "-" r; '(_, r) ← Date.digits 2 0 r;
    r ← Date.expect "-" r; '(_, r) ← Date.digits 2 0 r;
    r ← Date.expect "T" r; '(_, r) ← Date.digits 2 0 r;
    r ← Date.expect ":" r; '(_, r) ← Date.digits 2 0 r;
    r ← Date.expect ":" r; '(_, r) ← Date.digits 2 0 r;
    r ← Date.expect "." r; '(_, r) ← Date.digits 3 0 r;
    Date.expect "Z" r
  with
  | Some EmptyString => true
  | _ => false
  end.

(** A character that a JSON string literal holds as it is. *)
Definition plain (c : ascii) : bool :=
  (32 <=? JS.code c) && negb (JS.code c =? 34) && negb (JS.code c =? 92).

(** The JSON document a response carries, and its timestamp. *)
Definition response_document (res : Response) : option JSON.t :=
  match res_body res with
  | Chunk text => JSON.parse text
  | _ => None
  end.

Definition response_timestamp (res : Response) : option string :=
  match response_document res ≫= JSON.field "timestamp" with
  | Some (JSON.Str ts) => Some ts
  | _ => None
  end.

(** The value of a string of decimal digits. *)
Definition decimal_value (s : string) : option Z :=
  if JS.all_chars JS.is_digit s then JS.digits_in 10 s else None.

(** Requests used as examples. *)
Definition request (method path : string) (headers : list (string * string))
  (body : string) : Request :=
  {| req_method := method; req_path := path; req_query := "";
     req_headers := list_to_map headers; req_body := body;
     req_inflated := None |}.

(** Test documents are written with ['] for the double quote. *)
Definition dq (s : string) : string :=
  JS.map_string (fun c => if Ascii.eqb c "'" then JSON.dquote else c) s.

Definition plain_get : Request :=
  {| req_method := "GET"; req_path := "/"; req_query := "lang=en&debug=1";
     req_headers := list_to_map [("host", "localhost:3000");
                                 ("origin", "http://example.com");
                                 ("user-agent", "curl/8.5.0");
                                 ("accept", "*/*")];
     req_body := ""; req_inflated := None |}.

Definition data_get : Request :=
  {| req_method := "GET"; req_path := "/api/data"; req_query := "";
     req_headers := list_to_map [("host", "localhost:3000");
                                 ("accept", "application/json")];
     req_body := ""; req_inflated := None |}.

Definition unknown_get : Request :=
  {| req_method := "GET"; req_path := "/api/users"; req_query := "page=2";
     req_headers := list_to_map [("host", "localhost:3000")];
     req_body := ""; req_inflated := None |}.

Definition root_delete : Request :=
  {| req_method := "DELETE"; req_path := "/"; req_query := "";
     req_headers := list_to_map [("host", "localhost:3000")];
     req_body := ""; req_inflated := None |}.

Definition broken_post : Request :=
  {| req_method := "POST"; req_path := "/api/data"; req_query := "";
     req_headers := list_to_map [("host", "localhost:3000");
                                 ("content-type", "application/json");
                                 ("content-length", "9")];
     req_body := "{'a': 1,}"; req_inflated := None |}.

Definition parse_failed : HttpError := BodyParser.error 400 "entity.parse.failed".

(** [n] times the character [&]: a form body with [n + 1] (empty)
    parameters. *)
Fixpoint many_parameters (n : nat) : string :=
  match n with
  | O => ""
  | S n' => String "&" (many_parameters n')
  end.

(** A form with one key of [n] bracket segments. *)
Fixpoint nested_key (n : nat) : string :=
  match n with
  | O => "=1"
  | S n' => "[a]" +:+ nested_key n'
  end.



Definition port_8080 : gmap string string := {[ "PORT" := "8080" ]}.

(** A white space sequence does not start with a character of [p]. *)
Definition starts_off (p : ascii -> bool) (w : string) : bool :=
  match w with
  | String a _ => negb (p a)
  | EmptyString => false
  end.

(** A handler that is not in [server.js]: it counts the requests in the
    store. The store can tell it from the handlers of [server.js]. *)
Definition counting_handler : Handler := fun now req res store =>
  let n := match store !! "visits" with Some (JS.Num n) => n | _ => 0 end in
  (End (Express.send req (Text.decimal (n + 1)) res),
   <["visits" := JS.Num (n + 1)]> store).



Definition with_body (b : string) (i : option string) (req : Request) : Request :=
  {| req_method := req_method req; req_path := req_path req;
     req_query := req_query req; req_headers := req_headers req;
     req_body := b; req_inflated := i |}.

(** The body parsers pass the request on, or fail it with one of the
    client errors of body-parser. *)
Definition decided (json urlencoded : Middleware) (req : Request) : Prop :=
  accepted json urlencoded req
  \/ exists e, rejected json urlencoded req e /\ client_error e.

(** A preflight of a browser. *)
Definition preflight : Request :=
  request "OPTIONS" "/api/data"
    [("origin", "http://example.com");
     ("access-control-request-method", "POST");
     ("access-control-request-headers", "content-type, x-token")] "".

(** * Checks of the runtime model on known values *)

Example sha1_abc :
  Base64.encode (Sha1.digest (JS.bytes "abc")) = "qZk+NkcGgWq6PiVxeFDCbJzQ2J0="%string.
Proof. vm_compute. reflexivity. Qed.

Example sha1_empty :
  Base64.encode (Sha1.digest (JS.bytes "")) = "2jmj7l5rSw0yVb/vlWAYkK/YBwk="%string.
Proof. vm_compute. reflexivity. Qed.

(** The entity tag Express gives the familiar [Hello World!]. *)
Example etag_hello_world :
  Express.etag "Hello World!" = dq "W/'c-Lve95gjOVATpfV8EL5X4nxwjKHE'".
Proof. vm_compute. reflexivity. Qed.

Example etag_welcome :
  Express.etag welcome = dq "W/'1b-dpXcADBoF+J3hbGuXMEVXcqLrOA'".
Proof. vm_compute. reflexivity. Qed.

Example etag_document :
  Express.etag (JSON.stringify (sample_document 1793688120123))
  = dq "W/'5f-hrNZ2RVNbNBh9TT2KnNiGFX24io'".
Proof. vm_compute. reflexivity. Qed.

Example body_document :
  JSON.stringify (sample_document 1793688120123)
  = dq "{'message':'This is some sample data from the backend!','timestamp':'2026-11-03T06:42:00.123Z'}".
Proof. vm_compute. reflexivity. Qed.

(** A conditional GET: [If-None-Match: *] is fresh for any entity, a
    tag that does not match is not, and [Cache-Control: no-cache]
    overrides a match. *)
Example conditional_any :
  statusCode (serve 0 (request "GET" "/" [("if-none-match", "*")] "")) = 304.
Proof. vm_compute. reflexivity. Qed.

Example conditional_other_tag :
  statusCode (serve 0 (request "GET" "/" [("if-none-match", dq "'abc'")] "")) = 200.
Proof. vm_compute. reflexivity. Qed.

Example conditional_no_cache :
  statusCode (serve 0 (request "GET" "/" [("if-none-match", "*");
                                          ("cache-control", "no-cache")] "")) = 200.
Proof. vm_compute. reflexivity. Qed.

Example iso_2026 : Date.toISOString 1793688120123 = "2026-11-03T06:42:00.123Z"%string.
Proof. vm_compute. reflexivity. Qed.
Example iso_leap : Date.toISOString 951868799999 = "2000-02-29T23:59:59.999Z"%string.
Proof. vm_compute. reflexivity. Qed.
Example iso_neg : Date.toISOString (-1) = "1969-12-31T23:59:59.999Z"%string.
Proof. vm_compute. reflexivity. Qed.
Example iso_9999 : Date.toISOString 253402300799999 = "9999-12-31T23:59:59.999Z"%string.
Proof. vm_compute. reflexivity. Qed.
Example iso_max : Date.toISOString 8640000000000000 = "+275760-09-13T00:00:00.000Z"%string.
Proof. vm_compute. reflexivity. Qed.
Example iso_min : Date.toISOString (-8640000000000000) = "-271821-04-20T00:00:00.000Z"%string.
Proof. vm_compute. reflexivity. Qed.
Example iso_y0 : Date.toISOString (-62167219200000) = "0000-01-01T00:00:00.000Z"%string.
Proof. vm_compute. reflexivity. Qed.
Example parse_2026 : Date.parse "2026-11-03T06:42:00.123Z" = Some 1793688120123.
Proof. vm_compute. reflexivity. Qed.
Example parse_min : Date.parse "-271821-04-20T00:00:00.000Z" = Some (-8640000000000000).
Proof. vm_compute. reflexivity. Qed.
Example parse_bad : Date.parse "2026-02-30T06:42:00.123Z" = None.
Proof. vm_compute. reflexivity. Qed.

Example json_parse_1 :
  JSON.parse (dq "{'a': [1, -2.5e+3, true, null, 'x\nA'], 'b': {}}")
  = Some (JSON.Object [("a", JSON.Array [JSON.Number "1"; JSON.Number "-2.5e+3";
                                JSON.Bool true; JSON.Null;
                                JSON.Str (String "x" (String (JS.chr 10) "A"))]);
                       ("b", JSON.Object [])])%string.
Proof. vm_compute. reflexivity. Qed.
Example json_parse_nested : JSON.parse "[[[[]]],[1,2,3,4,5]]" <> None.
Proof. vm_compute. discriminate. Qed.
Example json_parse_bad1 : JSON.parse "{" = None.
Proof. vm_compute. reflexivity. Qed.
Example json_parse_bad2 : JSON.parse "[1,]" = None.
Proof. vm_compute. reflexivity. Qed.
Example json_parse_bad3 : JSON.parse "01" = None.
Proof. vm_compute. reflexivity. Qed.
Example json_parse_bad4 : JSON.parse (dq "{'a':1} x") = None.
Proof. vm_compute. reflexivity. Qed.
Example json_parse_u : JSON.parse (dq "'Aé'") = Some (JSON.Str (String "A" (String (JS.chr 195) (String (JS.chr 169) "")))).
Proof. vm_compute. reflexivity. Qed.
Example json_stringify_1 :
  JSON.stringify (JSON.Object [("a", JSON.Str (dq "x'y")); ("b", JSON.Array [JSON.Null; JSON.Bool false])])
  = dq "{'a':'x\'y','b':[null,false]}".
Proof. vm_compute. reflexivity. Qed.


(** [Number] and [net.Server.listen] on the forms a port can be written
    in. *)
Example number_forms :
  map (fun s => JS.integer_upto 65535 (JS.Number JS.utf8_space s))
      ["8080"; "0x1F90"; " 3002 "; "3003.0"; "8.08e3"; "3000.0000000000000001";
       "65536"; "3000.5"; "Infinity"; "abc"; "-1"; "1_000"; "+0x10"; "."; "-0"]
  = [Some 8080; Some 8080; Some 3002; Some 3003; Some 8080; Some 3000;
     None; None; None; None; None; None; None; None; Some 0].
Proof. vm_compute. reflexivity. Qed.

Example listen_forms :
  map Net.listen [JS.Num 3000; JS.Str "8080"; JS.Str "0x1F90"; JS.Str " 3002 ";
                  JS.Str "3003.0"; JS.Str "0"; JS.Str "65536"; JS.Str "3000.5";
                  JS.Str "abc"; JS.Str "-1"; JS.Str "  "]
  = [Net.Port 3000; Net.Port 8080; Net.Port 8080; Net.Port 3002;
     Net.Port 3003; Net.AnyPort; Net.Throws; Net.Throws;
     Net.Path "abc"; Net.Path "-1"; Net.Throws].
Proof. vm_compute. reflexivity. Qed.

(** Content types as [type-is] and [content-type] read them. *)
Example media_types :
  map MediaType.normalizeType
      ["application/json"; "Application/JSON ; charset=utf-8"; "application/json;";
       "application/json; charset"; "application/vnd.api+json"; "text"; ""]
  = [Some "application/json"; Some "application/json"; None;
     None; Some "application/vnd.api+json"; None; None]%string.
Proof. vm_compute. reflexivity. Qed.

Example charset_last :
  map (fun v => BodyParser.getCharset (request "POST" "/" [("content-type", v)] ""))
      ["application/json"; "application/json; charset=UTF-8";
       "application/json; charset=utf-8; charset=latin1";
       "application/json; charset=" +:+ dq "'utf-16le'"; "application/json; charset="]
  = ["utf-8"; "utf-8"; "latin1"; "utf-16le"; "utf-8"]%string.
Proof. vm_compute. reflexivity. Qed.

Example charsets_known :
  map Iconv.encodingExists ["utf-8"; "UTF-8"; "utf8"; "utf-16le"; "utf-7"; "utf-9"; "utf-32"]
  = [true; true; true; true; true; false; false].
Proof. vm_compute. reflexivity. Qed.

(** What the body parsers make of some requests: a charset that
    iconv-lite does not know, a second charset parameter, a parameter
    list that does not parse (the parser skips the body), an empty
    Content-Encoding, a byte order mark, a JSON text that is not an
    object or array, and forms that nest 32 and 33 levels deep. *)
Definition json_post (type : string) (more : list (string * string))
  (body : string) : Request :=
  request "POST" "/"
    ([("content-type", type); ("content-length", Text.decimal (JS.len body))] ++ more)
    body.

(** A request whose entity is compressed: the text, and what zlib
    makes of the entity. *)
Definition gzip_post (body : string) (inflated : option string) : Request :=
  {| req_method := "POST"; req_path := "/"; req_query := "";
     req_headers := list_to_map [("content-type", "application/json");
                                 ("content-encoding", "gzip");
                                 ("content-length", Text.decimal (JS.len body))];
     req_body := body; req_inflated := inflated |}.

Example body_parser_verdicts :
  map (fun r => err_status <$> body_error r)
      [json_post "application/json" [] (dq "{'a': [1, 2]}");
       json_post "application/json; charset=utf-9" [] "{}";
       json_post "application/json; charset=utf-8; charset=latin1" [] "{}";
       json_post "application/json;" [] "{";
       json_post "application/json" [("content-encoding", "")] "{}";
       json_post "application/json" [("content-encoding", "br")] "{}";
       json_post "application/json" [] (JS.of_codes [239; 187; 191] +:+ "{}");
       json_post "application/json; charset=utf-16le" []
                 (JS.of_codes [123; 0; 125; 0]);
       json_post "application/json; charset=utf-16" []
                 (JS.of_codes [254; 255; 0; 91; 0; 93]);
       json_post "application/json; charset=utf-7" [] "+AHs-+AH0";
       json_post "application/json; charset=utf-7" [] "+AHs-+AH0-+-";
       gzip_post "{}" None;
       gzip_post (JS.of_codes [31; 139; 8; 0]) (Some "[1, 2]");
       json_post "application/json" [] "1";
       json_post "text/plain" [] "{";
       json_post "application/x-www-form-urlencoded" [] "a=1&b[c]=2";
       json_post "application/x-www-form-urlencoded" [] (String "a" (nested_key 32));
       json_post "application/x-www-form-urlencoded" [] (String "a" (nested_key 33));
       json_post "application/x-www-form-urlencoded; charset=latin1" [] "a=1";
       request "POST" "/" [("content-type", "application/json")] "{"]
  = [None; Some 415; Some 415; None; None; Some 415; None; None; None;
     None; Some 400; Some 400; None;
     Some 400; None; None; None; Some 400; Some 415; None].
Proof. vm_compute. reflexivity. Qed.

(** A handler that writes to the store makes a later response depend on
    the earlier requests; the store is what shows it. *)
Example counting_is_stateful :
  let counter :=
    {| binding := Net.Port 3000;
       listen_app := app_with BodyParser.json BodyParser.urlencoded
                              counting_handler data_handler;
       store := ∅ |} in
  map res_body (snd (cycles counter [(0, plain_get); (1, plain_get)]))
  = [Chunk "1"; Chunk "2"].
Proof. vm_compute. reflexivity. Qed.

(** * The middleware chain *)

Section Chain.

Variables (json urlencoded : Middleware) (h_root h_data : Handler).
Variables (now : Z) (req : Request) (store : Store).

Lemma cors_actual (res : Response) :
  JS.toUpperCase (req_method req) <> "OPTIONS"%string ->
  Cors.cors req res store = (Next (Cors.configureOrigin res), store).
Proof.
  intros Hm. unfold Cors.cors, stateless, Cors.corsMiddleware.
  destruct (String.eqb_spec (JS.toUpperCase (req_method req)) "OPTIONS"); congruence.
Qed.

Lemma vary_keeps (field k : string) (res : Response) :
  k <> "vary"%string ->
  res_headers (Cors.vary field res) !! k = res_headers res !! k.
Proof.
  intros Hk. unfold Cors.vary.
  repeat case_match; cbn; by rewrite ?lookup_insert_ne.
Qed.

Lemma allowedHeaders_keeps (k : string) (res : Response) :
  k <> "vary"%string -> k <> "access-control-allow-headers"%string ->
  res_headers (Cors.configureAllowedHeaders req res) !! k = res_headers res !! k.
Proof.
  intros Hk Hk'. unfold Cors.configureAllowedHeaders.
  repeat case_match; cbn; rewrite ?lookup_insert_ne by done; by apply vary_keeps.
Qed.

Lemma cors_preflight (res : Response) :
  JS.toUpperCase (req_method req) = "OPTIONS"%string ->
  exists res', Cors.corsMiddleware req res = End res'
    /\ statusCode res' = 204 /\ res_body res' = NoBody
    /\ res_headers res' !! "access-control-allow-origin" = Some "*"%string.
Proof.
  intros Hm. unfold Cors.corsMiddleware. rewrite Hm.
  cbn [String.eqb Ascii.eqb Bool.eqb].
  eexists. split; [reflexivity|]. repeat split.
  cbn [res_headers setHeader setStatus endWith].
  rewrite lookup_insert_ne by done.
  rewrite allowedHeaders_keeps by done.
  cbn. by simplify_map_eq.
Qed.

(** The router's stack after the five registrations. *)
Lemma app_with_stack (p1 p2 : Middleware) (h1 h2 : Handler) :
  Express.stack (app_with p1 p2 h1 h2)
  = [ Express.Use Cors.cors;
      Express.Use p1;
      Express.Use p2;
      Express.Route "get" "/" h1;
      Express.Route "get" "/api/data" h2 ].
Proof. reflexivity. Qed.

(** A request that is not a preflight and that the two parsers pass on
    reaches the routes, with the header of [cors] set. *)
Lemma handle_accepted :
  JS.toUpperCase (req_method req) <> "OPTIONS"%string ->
  accepted json urlencoded req ->
  Express.handle (app_with json urlencoded h_root h_data) now req store =
  Express.run [Express.Route "get" "/" h_root;
               Express.Route "get" "/api/data" h_data] now req after_cors store.
Proof.
  intros Hm [Hj Hu]. unfold Express.handle. rewrite app_with_stack.
  cbn [Express.run]. rewrite (cors_actual _ Hm). fold after_cors.
  by rewrite Hj, Hu.
Qed.

(** A request that one of the parsers fails goes to [finalhandler]. *)
Lemma handle_rejected (e : HttpError) :
  JS.toUpperCase (req_method req) <> "OPTIONS"%string ->
  rejected json urlencoded req e ->
  Express.handle (app_with json urlencoded h_root h_data) now req store =
  (Finalhandler.finalhandler (Some e) req after_cors, store).
Proof.
  intros Hm H. unfold Express.handle. rewrite app_with_stack.
  cbn [Express.run]. rewrite (cors_actual _ Hm). fold after_cors.
  destruct H as [Hj | [Hj Hu]]; [by rewrite Hj | by rewrite Hj, Hu].
Qed.

(** The response to a preflight: [cors] ends it, whatever the rest. *)
Lemma handle_preflight :
  JS.toUpperCase (req_method req) = "OPTIONS"%string ->
  exists res',
    Cors.corsMiddleware req (Express.expressInit Express.fresh_response) = End res'
    /\ Express.handle (app_with json urlencoded h_root h_data) now req store
       = (res', store)
    /\ statusCode res' = 204 /\ res_body res' = NoBody
    /\ res_headers res' !! "access-control-allow-origin" = Some "*"%string.
Proof.
  intros Hm.
  destruct (cors_preflight (Express.expressInit Express.fresh_response) Hm)
    as (res' & Hc & Hs & Hb & Ho).
  exists res'. repeat split; try done.
  unfold Express.handle. rewrite app_with_stack. cbn [Express.run].
  unfold Cors.cors, stateless. by rewrite Hc.
Qed.

End Chain.

(** * The model of body-parser *)

Section Parsers.

Variable req : Request.

(** Whether a body parser passes or fails does not depend on [res]. *)
Lemma read_uniform (parse : string -> option HttpError) (charset : string)
  (res res' : Response) :
  BodyParser.read parse charset req res' =
  match BodyParser.read parse charset req res with
  | Next _ => Next res'
  | Throw e _ => Throw e res'
  | End r => End r
  end.
Proof. unfold BodyParser.read. repeat case_match; reflexivity. Qed.

Lemma jsonParser_uniform (res res' : Response) :
  BodyParser.jsonParser req res' =
  match BodyParser.jsonParser req res with
  | Next _ => Next res'
  | Throw e _ => Throw e res'
  | End r => End r
  end.
Proof.
  unfold BodyParser.jsonParser.
  destruct (negb (BodyParser.hasBody req)); [reflexivity|].
  destruct (negb (BodyParser.typeis req _)); [reflexivity|].
  destruct (negb (String.prefix _ _)); [reflexivity|]. apply read_uniform.
Qed.

Lemma urlencodedParser_uniform (res res' : Response) :
  BodyParser.urlencodedParser req res' =
  match BodyParser.urlencodedParser req res with
  | Next _ => Next res'
  | Throw e _ => Throw e res'
  | End r => End r
  end.
Proof.
  unfold BodyParser.urlencodedParser.
  destruct (negb (BodyParser.hasBody req)); [reflexivity|].
  destruct (negb (BodyParser.typeis req _)); [reflexivity|].
  destruct (negb (String.eqb _ _)); [reflexivity|]. apply read_uniform.
Qed.

Lemma read_never_ends (parse : string -> option HttpError) (charset : string)
  (res r : Response) :
  BodyParser.read parse charset req res <> End r.
Proof. unfold BodyParser.read. repeat case_match; discriminate. Qed.

Lemma jsonParser_never_ends (res r : Response) :
  BodyParser.jsonParser req res <> End r.
Proof.
  unfold BodyParser.jsonParser.
  destruct (negb (BodyParser.hasBody req)); [discriminate|].
  destruct (negb (BodyParser.typeis req _)); [discriminate|].
  destruct (negb (String.prefix _ _)); [discriminate|]. apply read_never_ends.
Qed.

Lemma urlencodedParser_never_ends (res r : Response) :
  BodyParser.urlencodedParser req res <> End r.
Proof.
  unfold BodyParser.urlencodedParser.
  destruct (negb (BodyParser.hasBody req)); [discriminate|].
  destruct (negb (BodyParser.typeis req _)); [discriminate|].
  destruct (negb (String.eqb _ _)); [discriminate|]. apply read_never_ends.
Qed.

(** The two body parsers of the model in terms of [body_error]. *)
Lemma body_error_accepted :
  body_error req = None ->
  accepted BodyParser.json BodyParser.urlencoded req.
Proof.
  unfold body_error, accepted, passes, BodyParser.json, BodyParser.urlencoded,
    stateless. intros H.
  split; intros res store.
  - rewrite (jsonParser_uniform Express.fresh_response res).
    destruct (BodyParser.jsonParser req Express.fresh_response) eqn:Hj;
      [done | congruence | by apply jsonParser_never_ends in Hj].
  - rewrite (urlencodedParser_uniform Express.fresh_response res).
    destruct (BodyParser.jsonParser req Express.fresh_response) eqn:Hj;
      [| congruence | by apply jsonParser_never_ends in Hj].
    destruct (BodyParser.urlencodedParser req Express.fresh_response) eqn:Hu;
      [done | congruence | by apply urlencodedParser_never_ends in Hu].
Qed.

Lemma body_error_rejected (e : HttpError) :
  body_error req = Some e ->
  rejected BodyParser.json BodyParser.urlencoded req e.
Proof.
  unfold body_error, rejected, passes, fails, BodyParser.json,
    BodyParser.urlencoded, stateless. intros H.
  destruct (BodyParser.jsonParser req Express.fresh_response) as [r|e' r|r] eqn:Hj.
  - right. split; intros res1 store1.
    + by rewrite (jsonParser_uniform Express.fresh_response res1), Hj.
    + rewrite (urlencodedParser_uniform Express.fresh_response res1).
      destruct (BodyParser.urlencodedParser req Express.fresh_response) eqn:Hu;
        [congruence | congruence | by apply urlencodedParser_never_ends in Hu].
  - left. intros res1 store1.
    rewrite (jsonParser_uniform Express.fresh_response res1), Hj. congruence.
  - by apply jsonParser_never_ends in Hj.
Qed.

Lemma read_throw (parse : string -> option HttpError) (charset : string)
  (res r : Response) (e : HttpError) :
  BodyParser.read parse charset req res = Throw e r ->
  client_error e \/ exists text, parse text = Some e.
Proof.
  unfold BodyParser.read, client_error.
  repeat (match goal with
          | |- context [if ?b then Throw _ _ else _] =>
              destruct b; [intros [= <- _]; cbn; auto|]
          end).
  destruct (if String.eqb _ "identity" then _ else _) as [entity|];
    [|intros [= <- _]; cbn; auto].
  repeat (match goal with
          | |- context [if ?b then Throw _ _ else _] =>
              destruct b; [intros [= <- _]; cbn; auto|]
          end).
  destruct (parse _) eqn:E; [intros [= <- _]; eauto | discriminate].
Qed.

Lemma json_parse_error (text : string) (e : HttpError) :
  BodyParser.json_parse text = Some e -> client_error e.
Proof.
  unfold BodyParser.json_parse, client_error.
  destruct (String.eqb text ""); [discriminate|].
  destruct (BodyParser.firstchar text) as [c|]; [|intros [= <-]; cbn; auto].
  destruct (JSON.parse text);
    repeat case_match; try discriminate; intros [= <-]; cbn; auto.
Qed.

Lemma urlencoded_parse_error (text : string) (e : HttpError) :
  BodyParser.urlencoded_parse text = Some e -> client_error e.
Proof.
  unfold BodyParser.urlencoded_parse, client_error.
  destruct (_ <=? _); [intros [= <-]; cbn; auto|].
  destruct (Qs.too_deep text); [intros [= <-]; cbn; auto | discriminate].
Qed.

Lemma jsonParser_throw (res r : Response) (e : HttpError) :
  BodyParser.jsonParser req res = Throw e r -> client_error e.
Proof.
  unfold BodyParser.jsonParser.
  destruct (negb (BodyParser.hasBody req)); [discriminate|].
  destruct (negb (BodyParser.typeis req _)); [discriminate|].
  destruct (negb (String.prefix _ _)).
  - intros [= <- _]. unfold client_error. cbn. auto.
  - intros [H | [text H]]%read_throw; [done | by eapply json_parse_error].
Qed.

Lemma urlencodedParser_throw (res r : Response) (e : HttpError) :
  BodyParser.urlencodedParser req res = Throw e r -> client_error e.
Proof.
  unfold BodyParser.urlencodedParser.
  destruct (negb (BodyParser.hasBody req)); [discriminate|].
  destruct (negb (BodyParser.typeis req _)); [discriminate|].
  destruct (negb (String.eqb _ _)).
  - intros [= <- _]. unfold client_error. cbn. auto.
  - intros [H | [text H]]%read_throw; [done | by eapply urlencoded_parse_error].
Qed.

(** Every error of the model's parsers has status 400, 413 or 415. *)
Lemma body_error_status (e : HttpError) :
  body_error req = Some e -> client_error e.
Proof.
  unfold body_error.
  destruct (BodyParser.jsonParser req Express.fresh_response) eqn:Hj.
  - destruct (BodyParser.urlencodedParser req Express.fresh_response) eqn:Hu;
      try discriminate. intros [= <-]. by eapply urlencodedParser_throw.
  - intros [= <-]. by eapply jsonParser_throw.
  - by apply jsonParser_never_ends in Hj.
Qed.

(** A request without Content-Length and Transfer-Encoding has no body
    for the parsers: they pass it on. *)
Lemma no_body_accepted :
  BodyParser.hasBody req = false -> body_error req = None.
Proof.
  intros H. unfold body_error, BodyParser.jsonParser, BodyParser.urlencodedParser.
  rewrite H. reflexivity.
Qed.

End Parsers.

(** * [res.send], [res.json] and [finalhandler] *)

Ltac split_notin H := rewrite ?not_elem_of_cons in H; destruct_and?.
Ltac solve_notin :=
  rewrite ?not_elem_of_cons; repeat split; try done; try apply not_elem_of_nil.

Section Responses.

Variables (req : Request).

Lemma finalhandler_status (err : option HttpError) (res : Response) :
  statusCode (Finalhandler.finalhandler err req res) = Finalhandler.status err res.
Proof. unfold Finalhandler.finalhandler. by case_match. Qed.

Lemma finalhandler_body (err : option HttpError) (res : Response) :
  res_body (Finalhandler.finalhandler err req res) =
  if String.eqb (req_method req) "HEAD" then NoBody
  else Document (Finalhandler.message err req).
Proof. unfold Finalhandler.finalhandler. by case_match. Qed.

Lemma finalhandler_keeps (err : option HttpError) (res : Response) (k : string) :
  k ∉ ["content-encoding"; "content-language"; "content-range";
       "content-security-policy"; "x-content-type-options"; "content-type"]%string ->
  res_headers (Finalhandler.finalhandler err req res) !! k = res_headers res !! k.
Proof.
  intros Hk. split_notin Hk. unfold Finalhandler.finalhandler.
  case_match; cbn; by rewrite !lookup_insert_ne, !lookup_delete_ne.
Qed.

Lemma send_keeps (chunk : string) (res : Response) (k : string) :
  k ∉ ["content-type"; "content-length"; "etag"; "transfer-encoding"]%string ->
  res_headers (Express.send req chunk res) !! k = res_headers res !! k.
Proof.
  intros Hk. split_notin Hk.
  unfold Express.send, Express.defaultHeader.
  repeat case_match; cbn;
    rewrite ?lookup_delete_ne, ?lookup_insert_ne by done; reflexivity.
Qed.

(** [res.send] answering a GET request on a response that is still at
    status 200 and has no entity tag. *)
Lemma send_get (chunk : string) (res : Response) :
  req_method req = "GET"%string ->
  statusCode res = 200 ->
  res_headers res !! "etag" = None ->
  statusCode (Express.send req chunk res)
    = (if not_modified req chunk then 304 else 200)
  /\ res_body (Express.send req chunk res)
    = Chunk (if not_modified req chunk then "" else chunk)
  /\ res_headers (Express.send req chunk res) !! "content-type"
    = (if not_modified req chunk then None
       else Some (default "text/html; charset=utf-8"
                          (res_headers res !! "content-type"))).
Proof.
  intros Hm Hs He. destruct res as [st h b]. cbn in Hs, He. subst st.
  unfold not_modified, Express.send, Express.defaultHeader, Express.req_fresh.
  rewrite Hm. cbn [String.eqb Ascii.eqb Bool.eqb negb orb res_headers].
  destruct (h !! "content-type") as [ct|] eqn:Hct;
    cbn [res_headers setHeader statusCode];
    rewrite ?lookup_insert_ne, He by done;
    cbn [res_headers setHeader statusCode Z.leb Z.ltb Z.compare Pos.compare
         Pos.compare_cont andb orb];
    rewrite lookup_insert_eq;
    destruct (Express.fresh (req_headers req) (Some (Express.etag chunk)));
    cbn [res_headers setHeader setStatus removeHeader endWith statusCode res_body
         Z.eqb Pos.eqb orb];
    (split; [reflexivity|split; [reflexivity|]]).
  all: rewrite ?lookup_delete_ne, ?lookup_insert_ne by done.
  all: rewrite ?lookup_delete_eq, ?lookup_insert_eq; try done.
Qed.

(** [res.send] on a response that is still at status 200 and has no
    entity tag, for any method. *)
Lemma send_spec (chunk : string) (res : Response) :
  statusCode res = 200 ->
  res_headers res !! "etag" = None ->
  let h := <["etag" := Express.etag chunk]>
             (<["content-length" := Text.decimal (JS.len chunk)]>
                (res_headers (Express.defaultHeader "content-type"
                                "text/html; charset=utf-8" res))) in
  Express.send req chunk res =
  {| statusCode := if revalidated req chunk then 304 else 200;
     res_headers :=
       if revalidated req chunk
       then delete "transfer-encoding"
              (delete "content-length" (delete "content-type" h))
       else h;
     res_body :=
       if String.eqb (req_method req) "HEAD" then NoBody
       else Chunk (if revalidated req chunk then "" else chunk) |}.
Proof.
  intros Hs He h. destruct res as [st hd b]. cbn in Hs, He. subst st.
  unfold revalidated, not_modified, Express.send, Express.req_fresh.
  set (res1 := Express.defaultHeader _ _ _) in *.
  assert (statusCode res1 = 200) as Hs1.
  { unfold res1, Express.defaultHeader. by case_match. }
  assert (res_headers res1 !! "etag" = None) as He1.
  { unfold res1, Express.defaultHeader. case_match; cbn; [done|].
    by rewrite lookup_insert_ne. }
  destruct res1 as [st1 h1 b1]. cbn in Hs1, He1, h. subst st1.
  cbn [res_headers setHeader statusCode].
  rewrite He1.
  cbn [res_headers setHeader statusCode Z.leb Z.ltb Z.compare Pos.compare
         Pos.compare_cont andb orb].
  rewrite lookup_insert_eq. fold h.
  destruct (String.eqb (req_method req) "GET" || String.eqb (req_method req) "HEAD");
    cbn [negb andb];
    [destruct (Express.fresh (req_headers req) (Some (Express.etag chunk)))|];
    cbn [res_headers setHeader setStatus removeHeader endWith statusCode res_body
         Z.eqb Pos.eqb orb];
    by destruct (String.eqb (req_method req) "HEAD").
Qed.

End Responses.
(** * Dates: what [toISOString] writes and [Date.parse] reads back *)

Section Dates.

Lemma code_chr (x : Z) : 0 <= x < 256 -> JS.code (JS.chr x) = x.
Proof.
  intros Hx. unfold JS.code, JS.chr.
  rewrite N_ascii_embedding; lia.
Qed.

Lemma digit_range (n : Z) (k : nat) : 0 <= (n / 10 ^ Z.of_nat k) mod 10 < 10.
Proof. apply Z.mod_pos_bound. lia. Qed.

Lemma is_digit_chr (d : Z) : 0 <= d < 10 -> JS.is_digit (JS.chr (48 + d)) = true.
Proof.
  intros Hd. unfold JS.is_digit. rewrite code_chr by lia.
  apply andb_true_iff. split; apply Z.leb_le; lia.
Qed.

Lemma pad_digits (k : nat) (n : Z) : JS.all_chars JS.is_digit (Date.pad k n) = true.
Proof.
  induction k as [|k IH]; [reflexivity|].
  cbn [Date.pad JS.all_chars]. rewrite IH, is_digit_chr; [reflexivity|].
  apply digit_range.
Qed.

Lemma append_String (c : ascii) (s r : string) : String c s +:+ r = String c (s +:+ r).
Proof. reflexivity. Qed.

(** Reading [k] digits gives back the number [pad k] wrote. *)
Lemma digits_pad (k : nat) (n acc : Z) (rest : string) :
  Date.digits k acc (Date.pad k n +:+ rest)
  = Some (acc * 10 ^ Z.of_nat k + n mod 10 ^ Z.of_nat k, rest).
Proof.
  revert acc. induction k as [|k IH]; intros acc.
  - cbn. rewrite Z.mod_1_r. f_equal. f_equal. lia.
  - cbn [Date.pad Date.digits]. rewrite append_String.
    pose proof (digit_range n k) as Hd.
    rewrite is_digit_chr by done. rewrite IH, code_chr by lia.
    f_equal. f_equal.
    rewrite Nat2Z.inj_succ, Z.pow_succ_r by lia.
    rewrite (Z.mul_comm 10 (10 ^ Z.of_nat k)), Z.rem_mul_r by lia. ring.
Qed.

Lemma digits_pad_exact (k : nat) (n : Z) (rest : string) :
  0 <= n < 10 ^ Z.of_nat k ->
  Date.digits k 0 (Date.pad k n +:+ rest) = Some (n, rest).
Proof.
  intros Hn. rewrite digits_pad, Z.mod_small by done. f_equal.
Qed.

(** The year of a day, and its length. *)
Lemma YearFromDay_spec (d : Z) :
  Date.DayFromYear (Date.YearFromDay d) <= d
  < Date.DayFromYear (Date.YearFromDay d + 1).
Proof.
  unfold Date.YearFromDay.
  destruct (Z.ltb_spec d (Date.DayFromYear (1970 + 400 * d / 146097))) as [H1|H1].
  - unfold Date.DayFromYear in *. Z.div_mod_to_equations. lia.
  - destruct (Z.leb_spec (Date.DayFromYear (1970 + 400 * d / 146097 + 1)) d)
      as [H2|H2]; unfold Date.DayFromYear in *; Z.div_mod_to_equations; lia.
Qed.

Lemma DaysInYear_spec (y : Z) :
  Date.DayFromYear (y + 1) - Date.DayFromYear y = Date.DaysInYear y.
Proof.
  unfold Date.DaysInYear, Date.InLeapYear, Date.DayFromYear.
  destruct (Z.eqb_spec (y mod 4) 0), (Z.eqb_spec (y mod 100) 0),
    (Z.eqb_spec (y mod 400) 0); cbn; Z.div_mod_to_equations; lia.
Qed.

Lemma DayWithinYear_range (t : Z) :
  0 <= Date.DayWithinYear t
  < (if Date.InLeapYear (Date.YearFromTime t) then 366 else 365).
Proof.
  unfold Date.DayWithinYear, Date.YearFromTime.
  pose proof (YearFromDay_spec (Date.Day t)) as H.
  pose proof (DaysInYear_spec (Date.YearFromDay (Date.Day t))) as H'.
  unfold Date.DaysInYear in H'. lia.
Qed.

Lemma MonthFromDay_spec (leap : bool) (d : Z) :
  0 <= d < (if leap then 366 else 365) ->
  0 <= Date.MonthFromDay leap d <= 11
  /\ Date.MonthStart leap (Date.MonthFromDay leap d) <= d
     < Date.MonthStart leap (Date.MonthFromDay leap d + 1).
Proof.
  intros Hd. unfold Date.MonthFromDay.
  destruct leap; cbn [Date.MonthStart Z.add Pos.add Pos.succ];
    repeat match goal with
           | |- context [?a <? ?b] => destruct (Z.ltb_spec a b)
           end;
    repeat match goal with
           | |- context [Date.MonthStart ?b ?m] =>
               let v := eval vm_compute in (Date.MonthStart b m) in
               change (Date.MonthStart b m) with v
           end; lia.
Qed.

Lemma year_of_digit (c : ascii) (s : string) :
  JS.is_digit c = true -> Date.year (String c s) = Date.digits 4 0 (String c s).
Proof.
  destruct c as [[] [] [] [] [] [] [] []]; cbn; try discriminate; reflexivity.
Qed.

Lemma year_year_string (y : Z) (rest : string) :
  -999999 <= y <= 999999 ->
  Date.year (Date.year_string y +:+ rest) = Some (y, rest).
Proof.
  intros Hy. unfold Date.year_string.
  destruct (Z.leb_spec 0 y) as [H0|H0]; [destruct (Z.leb_spec y 9999) as [H1|H1]|];
    cbn [andb].
  - change (Date.pad 4 y) with
      (String (JS.chr (48 + (y / 10 ^ Z.of_nat 3) mod 10)) (Date.pad 3 y)).
    rewrite append_String, year_of_digit
      by (apply is_digit_chr, digit_range).
    rewrite <- append_String.
    change (String _ (Date.pad 3 y)) with (Date.pad 4 y).
    apply digits_pad_exact. cbn. lia.
  - destruct (Z.ltb_spec y 0); [lia|].
    rewrite append_String. cbn [Date.year].
    rewrite digits_pad_exact; [|cbn; lia]. do 2 f_equal. lia.
  - destruct (Z.ltb_spec y 0); [|lia].
    rewrite append_String. cbn [Date.year].
    rewrite digits_pad_exact; [|cbn; lia].
    destruct (Z.eqb_spec (Z.abs y) 0); [lia|]. do 2 f_equal. lia.
Qed.

Lemma year_range (t : Z) :
  Date.valid t -> -999999 <= Date.YearFromTime t <= 999999.
Proof.
  unfold Date.valid, Date.maxTime, Date.YearFromTime. intros Ht.
  pose proof (YearFromDay_spec (Date.Day t)) as H.
  assert (-100000000 <= Date.Day t <= 100000000) as Hd.
  { unfold Date.Day, Date.msPerDay. Z.div_mod_to_equations. lia. }
  revert H Hd. generalize (Date.YearFromDay (Date.Day t)), (Date.Day t).
  intros y d. unfold Date.DayFromYear. intros. Z.div_mod_to_equations. lia.
Qed.


Lemma expect_append (c : ascii) (rest : string) :
  Date.expect c (String c "" +:+ rest) = Some rest.
Proof.
  change (String c "" +:+ rest) with (String c rest).
  unfold Date.expect. by rewrite Ascii.eqb_refl.
Qed.

Ltac month_starts :=
  repeat match goal with
         | |- context [Date.MonthStart ?b ?m] =>
             let v := eval vm_compute in (Date.MonthStart b m) in
             change (Date.MonthStart b m) with v
         end.

Lemma calendar_fields (t : Z) :
  let leap := Date.InLeapYear (Date.YearFromTime t) in
  0 <= Date.MonthFromTime t <= 11
  /\ 1 <= Date.DateFromTime t
     <= Date.MonthStart leap (Date.MonthFromTime t + 1)
        - Date.MonthStart leap (Date.MonthFromTime t)
  /\ Date.DateFromTime t <= 31.
Proof.
  intros leap. unfold Date.MonthFromTime, Date.DateFromTime. fold leap.
  pose proof (DayWithinYear_range t) as Hd. fold leap in Hd.
  destruct (MonthFromDay_spec leap _ Hd) as [Hm Hs]. unfold Date.MonthFromTime.
  fold leap. split; [done|]. split; [lia|].
  revert Hm Hs. generalize (Date.MonthFromDay leap (Date.DayWithinYear t)).
  intros m Hm.
  assert (m = 0 \/ m = 1 \/ m = 2 \/ m = 3 \/ m = 4 \/ m = 5 \/ m = 6 \/ m = 7
          \/ m = 8 \/ m = 9 \/ m = 10 \/ m = 11) as Hcases by lia.
  destruct leap; repeat (destruct Hcases as [-> | Hcases]); try subst m;
    month_starts; lia.
Qed.

Lemma make_date (t : Z) :
  Date.MakeDate
    (Date.MakeDay (Date.YearFromTime t) (Date.MonthFromTime t) (Date.DateFromTime t))
    (Date.MakeTime (Date.HourFromTime t) (Date.MinFromTime t)
       (Date.SecFromTime t) (Date.msFromTime t)) = t.
Proof.
  unfold Date.MakeDate, Date.MakeDay, Date.MakeTime, Date.DateFromTime,
    Date.DayWithinYear, Date.HourFromTime, Date.MinFromTime, Date.SecFromTime,
    Date.msFromTime, Date.Day, Date.msPerDay.
  generalize (Date.MonthStart (Date.InLeapYear (Date.YearFromTime t))
                (Date.MonthFromTime t)), (Date.DayFromYear (Date.YearFromTime t)).
  intros. Z.div_mod_to_equations. lia.
Qed.

Theorem parse_toISOString (t : Z) :
  Date.valid t -> Date.parse (Date.toISOString t) = Some t.
Proof.
  intros Ht. unfold Date.toISOString, Date.parse.
  destruct (calendar_fields t) as (Hmo & Hd & Hd31).
  pose proof (Z.mod_pos_bound (t / 3600000) 24 eq_refl) as Hh.
  pose proof (Z.mod_pos_bound (t / 60000) 60 eq_refl) as Hmi.
  pose proof (Z.mod_pos_bound (t / 1000) 60 eq_refl) as Hs.
  pose proof (Z.mod_pos_bound t 1000 eq_refl) as Hms.
  fold (Date.HourFromTime t) in Hh. fold (Date.MinFromTime t) in Hmi.
  fold (Date.SecFromTime t) in Hs. fold (Date.msFromTime t) in Hms.
  rewrite year_year_string by (by apply year_range).
  cbn [mbind option_bind].
  repeat (first [ rewrite expect_append
                | rewrite digits_pad_exact by (cbn; lia) ];
          cbn [mbind option_bind]).
  change (Date.expect "Z" "Z") with (Some ""%string).
  cbn [mbind option_bind String.eqb andb].
  replace (Date.MonthFromTime t + 1 - 1) with (Date.MonthFromTime t) by lia.
  rewrite (make_date t).
  unfold Date.valid in Ht.
  repeat match goal with
         | |- context [?a <=? ?b] =>
             destruct (Z.leb_spec a b); [cbn [andb] | lia]
         end.
  reflexivity.
Qed.


End Dates.

(** * JSON: the document of the data route parses back *)

Section Documents.

Lemma all_chars_app (p : ascii -> bool) (a b : string) :
  JS.all_chars p (a +:+ b) = JS.all_chars p a && JS.all_chars p b.
Proof.
  induction a as [|c a IH]; [reflexivity|].
  rewrite append_String. cbn [JS.all_chars]. by rewrite IH, andb_assoc.
Qed.

Lemma all_chars_impl (p q : ascii -> bool) (s : string) :
  (forall c, p c = true -> q c = true) ->
  JS.all_chars p s = true -> JS.all_chars q s = true.
Proof.
  intros Hpq. induction s as [|c s IH]; [done|].
  cbn [JS.all_chars]. rewrite !andb_true_iff. intros [Hc Hs]. auto.
Qed.

Lemma plain_spec (c : ascii) :
  plain c = true <-> 32 <= JS.code c /\ JS.code c <> 34 /\ JS.code c <> 92.
Proof.
  unfold plain. rewrite !andb_true_iff, !negb_true_iff, Z.leb_le, !Z.eqb_neq. tauto.
Qed.

Lemma digit_plain (c : ascii) : JS.is_digit c = true -> plain c = true.
Proof.
  unfold JS.is_digit. rewrite andb_true_iff, !Z.leb_le, plain_spec. lia.
Qed.

Lemma pad_plain (k : nat) (n : Z) : JS.all_chars plain (Date.pad k n) = true.
Proof. eapply all_chars_impl; [apply digit_plain | apply pad_digits]. Qed.

Lemma toISOString_plain (t : Z) : JS.all_chars plain (Date.toISOString t) = true.
Proof.
  unfold Date.toISOString, Date.year_string.
  rewrite !all_chars_app, !pad_plain.
  repeat case_match; cbn [JS.all_chars]; rewrite ?pad_plain; reflexivity.
Qed.

Lemma chars_plain (s rest : string) :
  JS.all_chars plain s = true ->
  JSON.chars (s +:+ String JSON.dquote rest) = Some (s, rest).
Proof.
  induction s as [|c s IH]; [reflexivity|].
  cbn [JS.all_chars]. rewrite andb_true_iff, plain_spec.
  intros [(H32 & H34 & H92) Hs].
  change (String c s +:+ String JSON.dquote rest)
    with (String c (s +:+ String JSON.dquote rest)).
  cbn [JSON.chars].
  destruct (Z.eqb_spec (JS.code c) 34); [done|].
  destruct (Z.eqb_spec (JS.code c) 92); [done|].
  destruct (Z.ltb_spec (JS.code c) 32); [lia|].
  rewrite IH by done. reflexivity.
Qed.

Lemma quote_chars_plain (s : string) :
  JS.all_chars plain s = true -> JSON.quote_chars s = s.
Proof.
  induction s as [|c s IH]; [reflexivity|].
  cbn [JS.all_chars]. rewrite andb_true_iff, plain_spec.
  intros [(H32 & H34 & H92) Hs].
  cbn [JSON.quote_chars]. rewrite IH by done. unfold JSON.quote_char.
  repeat match goal with
         | |- context [?a =? ?b] => destruct (Z.eqb_spec a b); [lia|]
         end.
  destruct (Z.ltb_spec (JS.code c) 32); [lia|]. reflexivity.
Qed.


Lemma append_assoc (a b c : string) : (a +:+ b) +:+ c = a +:+ (b +:+ c).
Proof.
  induction a as [|x a IH]; [reflexivity|].
  rewrite !append_String. by rewrite IH.
Qed.

(** One step of the parser on the tokens a serialized object is made of. *)
Lemma value_string (fuel : nat) (r : string) :
  JSON.value (S fuel) (String JSON.dquote r)
  = '(str, r') ← JSON.chars r; Some (JSON.Str str, r').
Proof. reflexivity. Qed.

Lemma value_object (fuel : nat) (r : string) :
  JSON.value (S fuel) (String "{" (String JSON.dquote r))
  = '(ms, r') ← JSON.members fuel (String JSON.dquote r); Some (JSON.Object ms, r').
Proof. reflexivity. Qed.

Lemma members_step (fuel : nat) (k r : string) :
  JS.all_chars plain k = true ->
  JSON.members (S fuel) (String JSON.dquote (k +:+ String JSON.dquote (String ":" r)))
  = '(v, r3) ← JSON.value fuel r;
    match JSON.skip_ws r3 with
    | String "," r4 =>
        '(ms, r5) ← JSON.members fuel r4; Some ((k, v) :: ms, r5)
    | String "}" r4 => Some ([(k, v)], r4)
    | _ => None
    end.
Proof.
  intros Hk. cbn [JSON.members].
  change (JSON.skip_ws (String JSON.dquote ?x)) with (String JSON.dquote x).
  cbv beta iota. rewrite (chars_plain k _ Hk). cbn [mbind option_bind].
  reflexivity.
Qed.

Lemma parse_sample (iso : string) :
  JS.all_chars plain iso = true ->
  JSON.parse (JSON.stringify
                (JSON.Object [("message", JSON.Str sample_message);
                              ("timestamp", JSON.Str iso)]))
  = Some (JSON.Object [("message", JSON.Str sample_message);
                       ("timestamp", JSON.Str iso)]).
Proof.
  intros Hiso. cbn [JSON.stringify map fst snd JSON.join].
  unfold JSON.quote. rewrite (quote_chars_plain iso) by done.
  match goal with
  | |- JSON.parse ?x = _ =>
      change x with
        (String "{"
          (String JSON.dquote
          ("message" +:+ String JSON.dquote
          (String ":"
          (String JSON.dquote
          (sample_message +:+ String JSON.dquote
          (String ","
          (String JSON.dquote
          ("timestamp" +:+ String JSON.dquote
          (String ":"
          (String JSON.dquote
          ((iso +:+ String JSON.dquote "") +:+ "}"))))))))))))
  end.
  rewrite append_assoc. unfold JSON.parse.
  change (String JSON.dquote "" +:+ "}") with (String JSON.dquote "}").
  cbn [String.length]. rewrite append_String at 1. cbn [String.length].
  rewrite value_object.
  rewrite members_step by reflexivity.
  rewrite value_string, chars_plain by reflexivity.
  cbn [mbind option_bind].
  change (JSON.skip_ws (String "," ?x)) with (String "," x). cbv beta iota.
  rewrite members_step by reflexivity.
  rewrite value_string, chars_plain by done.
  cbn [mbind option_bind].
  reflexivity.
Qed.


Lemma skip_year_of_digit (c : ascii) (s : string) :
  JS.is_digit c = true -> skip_year (String c s) = snd <$> Date.digits 4 0 (String c s).
Proof.
  destruct c as [[] [] [] [] [] [] [] []]; cbn; try discriminate; reflexivity.
Qed.

Lemma skip_year_year_string (y : Z) (rest : string) :
  skip_year (Date.year_string y +:+ rest) = Some rest.
Proof.
  unfold Date.year_string. destruct (_ && _).
  - change (Date.pad 4 y) with
      (String (JS.chr (48 + (y / 10 ^ Z.of_nat 3) mod 10)) (Date.pad 3 y)).
    rewrite append_String, skip_year_of_digit
      by (apply is_digit_chr, digit_range).
    rewrite <- append_String.
    change (String _ (Date.pad 3 y)) with (Date.pad 4 y).
    by rewrite digits_pad.
  - rewrite append_String. destruct (y <? 0); cbn [skip_year];
      by rewrite digits_pad.
Qed.

(** [toISOString] always writes the UTC form with milliseconds. *)
Lemma iso_fields_toISOString (t : Z) : iso_fields (Date.toISOString t) = true.
Proof.
  unfold iso_fields, Date.toISOString.
  rewrite skip_year_year_string. cbn [mbind option_bind].
  repeat (first [ rewrite expect_append | rewrite digits_pad ];
          cbn [mbind option_bind]).
  reflexivity.
Qed.

End Documents.

(** * The two routes *)

Section Routes.

Variables (now : Z) (req : Request) (res : Response) (store : Store).

Let routes (h_root h_data : Handler) : list Express.Layer :=
  [Express.Route "get" "/" h_root; Express.Route "get" "/api/data" h_data].

Lemma routes_root :
  Express.handles_method "get" (req_method req) = true ->
  Express.match_path "/" (req_path req) = true ->
  Express.run (routes root_handler data_handler) now req res store
  = (Express.send req welcome res, store).
Proof.
  intros Hm Hp. unfold routes. cbn [Express.run]. rewrite Hm, Hp. reflexivity.
Qed.

Lemma routes_data :
  Express.handles_method "get" (req_method req) = true ->
  Express.match_path "/" (req_path req) = false ->
  Express.match_path "/api/data" (req_path req) = true ->
  Express.run (routes root_handler data_handler) now req res store
  = (Express.json req (sample_document now) res, store).
Proof.
  intros Hm Hp Hp'. unfold routes. cbn [Express.run]. rewrite Hm, Hp, Hp'.
  reflexivity.
Qed.

Lemma routes_none (h_root h_data : Handler) :
  Express.handles_method "get" (req_method req) = false
  \/ (Express.match_path "/" (req_path req) = false
      /\ Express.match_path "/api/data" (req_path req) = false) ->
  Express.run (routes h_root h_data) now req res store
  = (Finalhandler.finalhandler None req res, store).
Proof.
  intros H. unfold routes. cbn [Express.run].
  destruct H as [-> | [-> ->]]; rewrite ?andb_false_r; reflexivity.
Qed.

(** The routes of [server.js] in one equation: they leave the store as
    it is. *)
Lemma routes_table :
  Express.run (routes root_handler data_handler) now req res store =
  (if Express.handles_method "get" (req_method req) then
     if Express.match_path "/" (req_path req)
     then Express.send req welcome res
     else if Express.match_path "/api/data" (req_path req)
     then Express.json req (sample_document now) res
     else Finalhandler.finalhandler None req res
   else Finalhandler.finalhandler None req res, store).
Proof.
  destruct (Express.handles_method "get" (req_method req)) eqn:Hg;
    [| apply routes_none; auto].
  destruct (Express.match_path "/" (req_path req)) eqn:H1;
    [by apply routes_root|].
  destruct (Express.match_path "/api/data" (req_path req)) eqn:H2;
    [by apply routes_data | apply routes_none; auto].
Qed.

Lemma defaultHeader_keeps (k k' v : string) :
  k' <> k ->
  res_headers (Express.defaultHeader k v res) !! k' = res_headers res !! k'.
Proof.
  intros Hk. unfold Express.defaultHeader. case_match; [done|].
  cbn. by rewrite lookup_insert_ne.
Qed.

Lemma routes_keep (k : string) :
  k ∉ ["content-type"; "content-length"; "etag"; "transfer-encoding";
       "content-encoding"; "content-language"; "content-range";
       "content-security-policy"; "x-content-type-options"]%string ->
  res_headers (fst (Express.run (routes root_handler data_handler) now req res store))
    !! k
  = res_headers res !! k.
Proof.
  intros Hk. split_notin Hk. rewrite routes_table. cbn [fst].
  repeat case_match; unfold Express.json.
  - rewrite send_keeps; [done | solve_notin].
  - rewrite send_keeps, defaultHeader_keeps; [done | done | solve_notin].
  - rewrite finalhandler_keeps; [done | solve_notin].
  - rewrite finalhandler_keeps; [done | solve_notin].
Qed.

End Routes.

(** * Numbers: what [Number] and [listen] make of a string of digits *)

Section Numbers.

Lemma strip_any_none (p : ascii -> bool) (ps : list string) (c : ascii)
  (r : string) :
  forallb (starts_off p) ps = true -> p c = true ->
  JS.strip_any ps (String c r) = None.
Proof.
  intros Hps Hc. induction ps as [|w ps IH]; [reflexivity|].
  cbn in Hps. apply andb_prop in Hps as [Hw Hps].
  destruct w as [|a w]; [discriminate|]. cbn in Hw |- *.
  destruct (Ascii.eqb_spec a c) as [->|_]; [by rewrite Hc in Hw | by apply IH].
Qed.

Lemma strip_all_stop (fuel : nat) (ps : list string) (s : string) :
  JS.strip_any ps s = None -> JS.strip_all fuel ps s = s.
Proof. intros H. destruct fuel; cbn; by rewrite ?H. Qed.

Lemma rev_onto_all (p : ascii -> bool) (s acc : string) :
  JS.all_chars p s = true -> JS.all_chars p acc = true ->
  JS.all_chars p (JS.rev_onto s acc) = true.
Proof.
  revert acc. induction s as [|c s IH]; intros acc Hs Ha; [done|].
  cbn in Hs |- *. apply andb_prop in Hs as [Hc Hs].
  apply IH; [done|]. cbn. by rewrite Hc.
Qed.

Lemma append_empty (s : string) : s +:+ "" = s.
Proof. induction s as [|c s IH]; [done | by rewrite append_String, IH]. Qed.

Lemma rev_onto_rev_onto (s a b : string) :
  JS.rev_onto (JS.rev_onto s a) b = JS.rev_onto a (s +:+ b).
Proof.
  revert a. induction s as [|c s IH]; intros a; [done|].
  rewrite append_String. cbn [JS.rev_onto]. by rewrite IH.
Qed.

Lemma reverse_involutive (s : string) : JS.reverse (JS.reverse s) = s.
Proof. unfold JS.reverse. rewrite rev_onto_rev_onto. cbn. apply append_empty. Qed.

(** Trimming leaves a text alone that starts and ends with a character
    of [p], when no white space sequence starts or ends with one. *)
Lemma trim_stays (p : ascii -> bool) (ws : list string) (s : string) :
  forallb (starts_off p) ws = true ->
  forallb (starts_off p) (map JS.reverse ws) = true ->
  JS.all_chars p s = true ->
  JS.trim ws s = s.
Proof.
  intros Hws Hrev Hs. unfold JS.trim, JS.trimStart.
  assert (JS.strip_all (String.length s) ws s = s) as ->.
  { destruct s as [|c r]; [done|]. apply strip_all_stop.
    cbn in Hs. apply andb_prop in Hs as [Hc _]. by eapply strip_any_none. }
  assert (JS.all_chars p (JS.reverse s) = true) as Hr by by apply rev_onto_all.
  destruct (JS.reverse s) as [|c r] eqn:E.
  - rewrite <- (reverse_involutive s), E. reflexivity.
  - rewrite strip_all_stop.
    + by rewrite <- E, reverse_involutive.
    + cbn in Hr. apply andb_prop in Hr as [Hc _]. by eapply strip_any_none.
Qed.

Lemma span_all (p : ascii -> bool) (s : string) :
  JS.all_chars p s = true -> JS.span p s = (s, ""%string).
Proof.
  induction s as [|c s IH]; [done|]. cbn. intros [Hc Hs]%andb_prop.
  by rewrite Hc, IH.
Qed.

Lemma strip_prefix_first (a c : ascii) (p r : string) :
  JS.is_digit a = false -> JS.is_digit c = true ->
  JS.strip_prefix (String a p) (String c r) = None.
Proof.
  intros Ha Hc. cbn. destruct (Ascii.eqb_spec a c) as [->|]; [congruence | done].
Qed.

Lemma strip_prefix_second (a b : ascii) (p s : string) :
  JS.is_digit b = false -> JS.all_chars JS.is_digit s = true ->
  JS.strip_prefix (String a (String b p)) s = None.
Proof.
  intros Hb Hs. destruct s as [|c1 [|c2 r]]; cbn in *; [done | by case_match |].
  destruct (Ascii.eqb a c1); [|done].
  apply andb_prop in Hs as [_ [H2 _]%andb_prop].
  destruct (Ascii.eqb_spec b c2) as [->|]; [congruence | done].
Qed.

(** [Number] of a string of decimal digits is the number they write. *)
Lemma Number_digits (s : string) (n : Z) :
  decimal_value s = Some n ->
  JS.trim JS.utf8_space s = s /\ s <> ""%string
  /\ JS.Number JS.utf8_space s = JS.Finite false n 0.
Proof.
  unfold decimal_value, JS.digits_in.
  destruct (JS.all_chars JS.is_digit s) eqn:Hs; [|done].
  destruct (String.eqb_spec s "") as [|Hne]; [done|]. intros Hn.
  assert (JS.trim JS.utf8_space s = s) as Ht.
  { by apply (trim_stays JS.is_digit). }
  split; [done|]. split; [done|].
  unfold JS.Number. rewrite Ht.
  destruct (String.eqb_spec s "") as [|_]; [done|].
  assert (JS.radix_literal s = None) as ->.
  { unfold JS.radix_literal. cbn [JS.strip_any].
    by rewrite !strip_prefix_second. }
  destruct s as [|c r]; [done|].
  pose proof Hs as Hs'. cbn in Hs'. apply andb_prop in Hs' as [Hc _].
  rewrite !strip_prefix_first by done.
  unfold JS.unsigned_decimal.
  destruct (String.eqb_spec (String c r) "Infinity") as [E|_].
  { rewrite E in Hs. discriminate. }
  rewrite span_all by done.
  cbn [String.eqb andb]. rewrite append_empty, Hn. reflexivity.
Qed.

Lemma magnitude_integer (n : Z) : (JS.magnitude n 0 == inject_Z n)%Q.
Proof. unfold JS.magnitude. cbn. ring. Qed.

Lemma rounds_to_itself (q : Q) (n : Z) :
  0 <= n -> (q == inject_Z n)%Q -> JS.rounds_to q n = true.
Proof.
  intros Hn Hq. unfold JS.rounds_to.
  assert (forall k, 0 <= Qpower 2 k)%Q as Hp.
  { intros k. by apply Qpower_0_le. }
  destruct (n =? 0) eqn:E.
  - apply Z.eqb_eq in E. subst n. apply Qle_bool_iff. rewrite Hq. apply Hp.
  - apply andb_true_intro. split; apply Qle_bool_iff; rewrite Hq.
    + pose proof (Hp (Z.log2 n - 54)). pose proof (Hp (Z.log2 n - 53)).
      destruct (n =? 2 ^ Z.log2 n); lra.
    + pose proof (Hp (Z.log2 n - 53)). lra.
Qed.

Lemma floor_half (q : Q) (n : Z) :
  (q == inject_Z n)%Q -> Qfloor (q + (1 # 2)) = n.
Proof.
  intros Hq. set (m := Qfloor _).
  pose proof (Qfloor_le (q + (1 # 2))) as H1.
  pose proof (Qlt_floor (q + (1 # 2))) as H2. fold m in H1, H2.
  rewrite Hq in H1, H2. rewrite inject_Z_plus in H2.
  change (inject_Z 1) with 1%Q in H2.
  assert (m <= n) as Hle.
  { apply Z.lt_succ_r. rewrite Zlt_Qlt. unfold Z.succ. rewrite inject_Z_plus.
    change (inject_Z 1) with 1%Q. lra. }
  assert (n <= m) as Hge.
  { apply Z.lt_succ_r. rewrite Zlt_Qlt. unfold Z.succ. rewrite inject_Z_plus.
    change (inject_Z 1) with 1%Q. lra. }
  lia.
Qed.

(** A Number that is an integer is that integer as a double, up to the
    bound. *)
Lemma integer_upto_integer (bound n : Z) :
  0 <= n ->
  JS.integer_upto bound (JS.Finite false n 0)
  = if n <=? bound then Some n else None.
Proof.
  intros Hn. unfold JS.integer_upto. cbn [andb].
  rewrite (floor_half _ n) by apply magnitude_integer.
  rewrite (rounds_to_itself _ n) by (done || apply magnitude_integer).
  by rewrite andb_true_r.
Qed.

Lemma numeral_nonneg (s : string) (acc n : Z) :
  0 <= acc -> JS.numeral 10 acc s = Some n -> 0 <= n.
Proof.
  revert acc. induction s as [|c s IH]; intros acc Ha; cbn.
  - by intros [= <-].
  - unfold JS.digit_value.
    repeat case_match; try discriminate; simplify_eq; apply IH; lia.
Qed.

Lemma decimal_value_nonneg (s : string) (n : Z) :
  decimal_value s = Some n -> 0 <= n.
Proof.
  unfold decimal_value, JS.digits_in. repeat case_match; try discriminate.
  by apply numeral_nonneg.
Qed.

(** [listen] with a string of decimal digits: the port they write, a
    free port for 0, an exception above 65535. *)
Lemma listen_digits (s : string) (n : Z) :
  decimal_value s = Some n ->
  Net.listen (JS.Str s)
  = if n =? 0 then Net.AnyPort
    else if n <=? 65535 then Net.Port n else Net.Throws.
Proof.
  intros Hs. pose proof (decimal_value_nonneg _ _ Hs) as Hn.
  destruct (Number_digits _ _ Hs) as (Ht & Hne & HN).
  unfold Net.listen, Net.isPipeName, Net.validatePort.
  rewrite HN, Ht. cbn [JS.ge_zero negb orb].
  destruct (String.eqb_spec s "") as [|_]; [done|].
  rewrite integer_upto_integer by done.
  destruct (n <=? 65535) eqn:E; destruct n; try done; lia.
Qed.

End Numbers.
(** * The claims of the specification *)

(** Without an If-None-Match header no request is answered 304. *)
Lemma unconditional_never_304 (req : Request) (chunk : string) :
  req_headers req !! "if-none-match" = None -> not_modified req chunk = false.
Proof.
  intros H. unfold not_modified, Express.fresh. rewrite H.
  cbn [default String.eqb negb andb].
  destruct (String.eqb (default "" (req_headers req !! "if-modified-since")) "");
    cbn [andb negb]; [reflexivity|].
  by destruct (Express.no_cache _).
Qed.

Lemma after_cors_status : statusCode after_cors = 200.
Proof. reflexivity. Qed.

Lemma after_cors_headers (k : string) :
  k <> "x-powered-by"%string -> k <> "access-control-allow-origin"%string ->
  res_headers after_cors !! k = None.
Proof.
  intros H1 H2. unfold after_cors, Cors.configureOrigin, Express.expressInit,
    Express.fresh_response. cbn.
  by rewrite !lookup_insert_ne, lookup_empty.
Qed.

Lemma get_is_actual (req : Request) :
  req_method req = "GET"%string ->
  JS.toUpperCase (req_method req) <> "OPTIONS"%string
  /\ Express.handles_method "get" (req_method req) = true.
Proof. intros ->. split; [discriminate | reflexivity]. Qed.

Lemma head_is_actual (req : Request) :
  req_method req = "HEAD"%string ->
  JS.toUpperCase (req_method req) <> "OPTIONS"%string
  /\ Express.handles_method "get" (req_method req) = true.
Proof. intros ->. split; [discriminate | reflexivity]. Qed.

Section Service.

Variables (json urlencoded : Middleware).
Variables (now : Z) (req : Request) (store : Store).

(** The whole service in one equation, for a request that is not a
    preflight and that the parsers accept. *)
Lemma respond_table :
  JS.toUpperCase (req_method req) <> "OPTIONS"%string ->
  accepted json urlencoded req ->
  respond json urlencoded now req store =
  if Express.handles_method "get" (req_method req) then
    if Express.match_path "/" (req_path req)
    then Express.send req welcome after_cors
    else if Express.match_path "/api/data" (req_path req)
    then Express.json req (sample_document now) after_cors
    else Finalhandler.finalhandler None req after_cors
  else Finalhandler.finalhandler None req after_cors.
Proof.
  intros Hm Ha. unfold respond.
  by rewrite handle_accepted, routes_table.
Qed.

Lemma respond_rejected (e : HttpError) :
  JS.toUpperCase (req_method req) <> "OPTIONS"%string ->
  rejected json urlencoded req e ->
  respond json urlencoded now req store
  = Finalhandler.finalhandler (Some e) req after_cors.
Proof. intros Hm Hr. unfold respond. by rewrite (handle_rejected _ _ _ _ _ _ _ e). Qed.

(** What the welcome route answers to a GET or HEAD request that
    reaches it. *)
Lemma root_response :
  req_method req = "GET"%string \/ req_method req = "HEAD"%string ->
  req_path req = "/"%string ->
  accepted json urlencoded req ->
  statusCode (respond json urlencoded now req store)
    = (if not_modified req welcome then 304 else 200)
  /\ res_body (respond json urlencoded now req store)
     = if String.eqb (req_method req) "HEAD" then NoBody
       else Chunk (if not_modified req welcome then "" else welcome).
Proof.
  intros Hm Hp Ha.
  assert (JS.toUpperCase (req_method req) <> "OPTIONS"%string
          /\ Express.handles_method "get" (req_method req) = true) as [Hn Hg].
  { destruct Hm; [by apply get_is_actual | by apply head_is_actual]. }
  rewrite respond_table, Hg, Hp by done. cbn [Express.match_path].
  change (Express.match_path "/" "/") with true. cbv iota.
  rewrite send_spec by (apply after_cors_status || by apply after_cors_headers).
  assert (revalidated req welcome = not_modified req welcome) as ->.
  { unfold revalidated. by destruct Hm as [-> | ->]. }
  done.
Qed.

(** What the data route answers to a GET or HEAD request that reaches
    it. *)
Lemma data_response :
  req_method req = "GET"%string \/ req_method req = "HEAD"%string ->
  req_path req = "/api/data"%string ->
  accepted json urlencoded req ->
  let text := JSON.stringify (sample_document now) in
  statusCode (respond json urlencoded now req store)
    = (if not_modified req text then 304 else 200)
  /\ res_body (respond json urlencoded now req store)
     = (if String.eqb (req_method req) "HEAD" then NoBody
        else Chunk (if not_modified req text then "" else text))
  /\ res_headers (respond json urlencoded now req store) !! "content-type"
     = (if not_modified req text then None
        else Some "application/json; charset=utf-8"%string).
Proof.
  intros Hm Hp Ha text.
  assert (JS.toUpperCase (req_method req) <> "OPTIONS"%string
          /\ Express.handles_method "get" (req_method req) = true) as [Hn Hg].
  { destruct Hm; [by apply get_is_actual | by apply head_is_actual]. }
  rewrite respond_table, Hg, Hp by done.
  change (Express.match_path "/" "/api/data") with false.
  change (Express.match_path "/api/data" "/api/data") with true. cbv iota.
  unfold Express.json. fold text.
  set (res := Express.defaultHeader _ _ after_cors).
  assert (statusCode res = 200) as Hs by reflexivity.
  assert (res_headers res !! "etag" = None) as He by reflexivity.
  assert (Express.defaultHeader "content-type" "text/html; charset=utf-8" res = res)
    as Hd by reflexivity.
  rewrite send_spec, Hd by done.
  assert (revalidated req text = not_modified req text) as ->.
  { unfold revalidated. by destruct Hm as [-> | ->]. }
  cbn [statusCode res_body res_headers]. split; [done|]. split; [done|].
  destruct (not_modified req text).
  - by rewrite lookup_delete_ne, lookup_delete_ne, lookup_delete_eq.
  - by rewrite !lookup_insert_ne.
Qed.

Lemma data_response_get :
  req_method req = "GET"%string ->
  req_path req = "/api/data"%string ->
  accepted json urlencoded req ->
  let text := JSON.stringify (sample_document now) in
  statusCode (respond json urlencoded now req store)
    = (if not_modified req text then 304 else 200)
  /\ res_body (respond json urlencoded now req store)
     = Chunk (if not_modified req text then "" else text)
  /\ res_headers (respond json urlencoded now req store) !! "content-type"
     = (if not_modified req text then None
        else Some "application/json; charset=utf-8"%string).
Proof.
  intros Hm Hp Ha text.
  destruct (data_response (or_introl Hm) Hp Ha) as (Hs & Hbody & Hc).
  by rewrite Hm in Hbody.
Qed.

End Service.

Lemma sample_document_parses (now : Z) :
  JSON.parse (JSON.stringify (sample_document now)) = Some (sample_document now).
Proof. apply parse_sample, toISOString_plain. Qed.

(** The requests of the examples have no body: the model of body-parser
    passes them on. *)
Lemma examples_accepted :
  accepted BodyParser.json BodyParser.urlencoded plain_get
  /\ accepted BodyParser.json BodyParser.urlencoded data_get
  /\ accepted BodyParser.json BodyParser.urlencoded unknown_get
  /\ accepted BodyParser.json BodyParser.urlencoded root_delete.
Proof. repeat split; intros res store; reflexivity. Qed.

(** C1 (amended). A GET request for [/] that the body-parsing middleware
    accepts and that is not a conditional request matching the entity
    tag of the welcome text is answered with status 200 and the body
    [Welcome to the Backend API!], whatever the two middlewares of
    body-parser are, the query string, the other headers and the store
    of the process. *)
Theorem root_welcome (json urlencoded : Middleware) (now : Z) (req : Request)
  (store : Store) :
  req_method req = "GET"%string ->
  req_path req = "/"%string ->
  accepted json urlencoded req ->
  not_modified req welcome = false ->
  statusCode (respond json urlencoded now req store) = 200
  /\ res_body (respond json urlencoded now req store)
     = Chunk "Welcome to the Backend API!".
Proof.
  intros Hm Hp Ha Hf.
  destruct (root_response json urlencoded now req store (or_introl Hm) Hp Ha)
    as [Hs Hbody].
  rewrite Hs, Hbody, Hf, Hm. done.
Qed.

Lemma root_welcome_witness :
  (req_method plain_get = "GET"%string /\ req_path plain_get = "/"%string
   /\ accepted BodyParser.json BodyParser.urlencoded plain_get
   /\ not_modified plain_get welcome = false)
  /\ statusCode (serve 1793688120123 plain_get) = 200
  /\ res_body (serve 1793688120123 plain_get) = Chunk "Welcome to the Backend API!".
Proof.
  pose proof examples_accepted as (Ha & _).
  split; [repeat split; apply Ha|].
  by apply (root_welcome BodyParser.json BodyParser.urlencoded
              1793688120123 plain_get ∅).
Defined.

(** C1 as stated fails: a GET for [/] that revalidates a cached copy,
    carrying the entity tag of the welcome text in [If-None-Match] as a
    browser does on reload, is answered 304 with an empty body. *)
Lemma root_conditional_get :
  let req := request "GET" "/"
               [("if-none-match", dq "W/'1b-dpXcADBoF+J3hbGuXMEVXcqLrOA'")] "" in
  req_method req = "GET"%string /\ req_path req = "/"%string
  /\ statusCode (serve 0 req) = 304 /\ res_body (serve 0 req) = Chunk "".
Proof. vm_compute. repeat split. Qed.

(** C2 (amended). A GET request for [/api/data] that the body-parsing
    middleware accepts and that is not a conditional request matching
    the entity tag of the response is answered with status 200, the
    content type [application/json; charset=utf-8] and a JSON document
    whose [message] is the fixed text and which has a [timestamp]. *)
Theorem data_document (json urlencoded : Middleware) (now : Z) (req : Request)
  (store : Store) :
  req_method req = "GET"%string ->
  req_path req = "/api/data"%string ->
  accepted json urlencoded req ->
  not_modified req (JSON.stringify (sample_document now)) = false ->
  statusCode (respond json urlencoded now req store) = 200
  /\ res_headers (respond json urlencoded now req store) !! "content-type"
     = Some "application/json; charset=utf-8"%string
  /\ exists doc,
       response_document (respond json urlencoded now req store) = Some doc
       /\ JSON.field "message" doc
          = Some (JSON.Str "This is some sample data from the backend!")
       /\ is_Some (JSON.field "timestamp" doc).
Proof.
  intros Hm Hp Ha Hf.
  destruct (data_response_get json urlencoded now req store Hm Hp Ha)
    as (Hs & Hbody & Hc).
  rewrite Hf in *. repeat split; [done..|].
  exists (sample_document now). unfold response_document.
  rewrite Hbody, sample_document_parses. repeat split. by eexists.
Qed.

Lemma data_document_witness :
  (req_method data_get = "GET"%string /\ req_path data_get = "/api/data"%string
   /\ accepted BodyParser.json BodyParser.urlencoded data_get
   /\ not_modified data_get (JSON.stringify (sample_document 1793688120123)) = false)
  /\ statusCode (serve 1793688120123 data_get) = 200
  /\ res_headers (serve 1793688120123 data_get) !! "content-type"
     = Some "application/json; charset=utf-8"%string
  /\ exists doc,
       response_document (serve 1793688120123 data_get) = Some doc
       /\ JSON.field "message" doc
          = Some (JSON.Str "This is some sample data from the backend!")
       /\ is_Some (JSON.field "timestamp" doc).
Proof.
  pose proof examples_accepted as (_ & Ha & _).
  split; [repeat split; apply Ha|].
  by apply (data_document BodyParser.json BodyParser.urlencoded
              1793688120123 data_get ∅).
Defined.

(** C2 as stated fails: a GET for [/api/data] that carries a form body
    with a thousand parameters is rejected by the URL-encoded parser: the
    answer is 413 with the HTML document of [finalhandler], not JSON. *)
Lemma data_rejected_get :
  let req := request "GET" "/api/data"
               [("content-type", "application/x-www-form-urlencoded");
                ("content-length", "1000")]
               (many_parameters 1000) in
  req_method req = "GET"%string /\ req_path req = "/api/data"%string
  /\ statusCode (serve 1793688120123 req) = 413
  /\ res_headers (serve 1793688120123 req) !! "content-type"
     = Some "text/html; charset=utf-8"%string
  /\ response_document (serve 1793688120123 req) = None.
Proof. vm_compute. repeat split. Qed.

(** C3 (amended). When a GET request for [/api/data] is answered with
    the document (the body-parsing middleware accepts it and it is not
    answered 304), the [timestamp] is the ISO string of the clock
    reading taken while this request is handled: it parses back to
    exactly that reading, so it lies in every interval that contains the
    reading, and another reading would have given another timestamp. *)
Theorem data_timestamp (json urlencoded : Middleware) (now issued received : Z)
  (req : Request) (store : Store) :
  Date.valid now ->
  req_method req = "GET"%string ->
  req_path req = "/api/data"%string ->
  accepted json urlencoded req ->
  not_modified req (JSON.stringify (sample_document now)) = false ->
  issued <= now <= received ->
  exists ts t,
    response_timestamp (respond json urlencoded now req store) = Some ts
    /\ ts = Date.toISOString (new_Date now)
    /\ Date.parse ts = Some t
    /\ t = now
    /\ issued <= t <= received
    /\ forall now', Date.valid now' -> now' <> now -> Date.toISOString now' <> ts.
Proof.
  intros Hv Hm Hp Ha Hf Hw.
  destruct (data_response_get json urlencoded now req store Hm Hp Ha)
    as (_ & Hbody & _).
  rewrite Hf in Hbody.
  exists (Date.toISOString now), now.
  unfold response_timestamp, response_document.
  rewrite Hbody, sample_document_parses.
  repeat split; try done; try lia.
  - by apply parse_toISOString.
  - intros now' Hv' Hne Heq. apply Hne.
    apply parse_toISOString in Hv, Hv'. congruence.
Qed.

Lemma data_timestamp_witness :
  (Date.valid 1793688120123
   /\ accepted BodyParser.json BodyParser.urlencoded data_get
   /\ not_modified data_get (JSON.stringify (sample_document 1793688120123)) = false
   /\ 1793688120100 <= 1793688120123 <= 1793688120150)
  /\ exists ts t,
    response_timestamp (serve 1793688120123 data_get) = Some ts
    /\ ts = Date.toISOString (new_Date 1793688120123)
    /\ Date.parse ts = Some t
    /\ t = 1793688120123
    /\ 1793688120100 <= t <= 1793688120150
    /\ forall now', Date.valid now' -> now' <> 1793688120123 ->
                    Date.toISOString now' <> ts.
Proof.
  pose proof examples_accepted as (_ & Ha & _).
  assert (Date.valid 1793688120123) as Hv
    by (unfold Date.valid, Date.maxTime; lia).
  split; [repeat split; try apply Ha; try apply Hv; lia|].
  apply (data_timestamp BodyParser.json BodyParser.urlencoded
           1793688120123 1793688120100 1793688120150 data_get ∅);
    try done; lia.
Defined.

(** C3 as stated fails: a GET for [/api/data] whose JSON body is
    malformed is answered 400, and the response has no timestamp. *)
Lemma data_malformed_get :
  let req := request "GET" "/api/data"
               [("content-type", "application/json"); ("content-length", "1")]
               "{" in
  req_method req = "GET"%string /\ req_path req = "/api/data"%string
  /\ statusCode (serve 1793688120123 req) = 400
  /\ response_timestamp (serve 1793688120123 req) = None.
Proof. vm_compute. repeat split. Qed.

(** C9 (amended). When a GET request for [/api/data] is answered with
    the document, the body is the serialization of an object with
    exactly the two members [message] and [timestamp], in this order,
    and the timestamp is what [Date.prototype.toISOString] writes: the
    UTC form [YYYY-MM-DDTHH:mm:ss.sssZ] with milliseconds. *)
Theorem data_serialization (json urlencoded : Middleware) (now : Z)
  (req : Request) (store : Store) :
  req_method req = "GET"%string ->
  req_path req = "/api/data"%string ->
  accepted json urlencoded req ->
  not_modified req (JSON.stringify (sample_document now)) = false ->
  exists doc ts,
    res_body (respond json urlencoded now req store) = Chunk (JSON.stringify doc)
    /\ response_document (respond json urlencoded now req store) = Some doc
    /\ JSON.keys doc = ["message"; "timestamp"]%string
    /\ JSON.field "timestamp" doc = Some (JSON.Str ts)
    /\ ts = Date.toJSON (new_Date now)
    /\ iso_fields ts = true.
Proof.
  intros Hm Hp Ha Hf.
  destruct (data_response_get json urlencoded now req store Hm Hp Ha)
    as (_ & Hbody & _).
  rewrite Hf in Hbody.
  exists (sample_document now), (Date.toISOString now).
  unfold response_document. rewrite Hbody, sample_document_parses.
  repeat split. apply iso_fields_toISOString.
Qed.

Lemma data_serialization_witness :
  (accepted BodyParser.json BodyParser.urlencoded data_get
   /\ not_modified data_get (JSON.stringify (sample_document 1793688120123)) = false)
  /\ exists doc ts,
    res_body (serve 1793688120123 data_get) = Chunk (JSON.stringify doc)
    /\ response_document (serve 1793688120123 data_get) = Some doc
    /\ JSON.keys doc = ["message"; "timestamp"]%string
    /\ JSON.field "timestamp" doc = Some (JSON.Str ts)
    /\ ts = Date.toJSON (new_Date 1793688120123)
    /\ iso_fields ts = true.
Proof.
  pose proof examples_accepted as (_ & Ha & _).
  split; [repeat split; apply Ha|].
  by apply (data_serialization BodyParser.json BodyParser.urlencoded
              1793688120123 data_get ∅).
Defined.

(** C9 as stated fails: a GET for [/api/data] that announces a JSON body
    in a charset other than UTF is answered 415 with the document of
    [finalhandler]: no JSON, no timestamp. *)
Lemma data_unsupported_charset :
  let req := request "GET" "/api/data"
               [("content-type", "application/json; charset=latin1");
                ("content-length", "0")] "" in
  req_method req = "GET"%string /\ req_path req = "/api/data"%string
  /\ statusCode (serve 1793688120123 req) = 415
  /\ response_document (serve 1793688120123 req) = None.
Proof. vm_compute. repeat split. Qed.

(** C4 (amended). A request that is not a preflight (OPTIONS), that the
    body-parsing middleware accepts, and whose path matches neither
    route (in any letter case, with or without a trailing slash) gets
    the not-found reply of [finalhandler]: status 404 and its own
    document, which a HEAD request gets without the body. *)
Theorem unknown_path_not_found (json urlencoded : Middleware) (now : Z)
  (req : Request) (store : Store) :
  JS.toUpperCase (req_method req) <> "OPTIONS"%string ->
  accepted json urlencoded req ->
  Express.match_path "/" (req_path req) = false ->
  Express.match_path "/api/data" (req_path req) = false ->
  respond json urlencoded now req store
  = Finalhandler.finalhandler None req after_cors
  /\ statusCode (respond json urlencoded now req store) = 404
  /\ res_body (respond json urlencoded now req store)
     = (if String.eqb (req_method req) "HEAD" then NoBody
        else Document (Cannot (req_method req) (req_path req))).
Proof.
  intros Hm Ha H1 H2.
  assert (respond json urlencoded now req store
          = Finalhandler.finalhandler None req after_cors) as ->.
  { rewrite respond_table, H1, H2 by done. by case_match. }
  split; [done|]. rewrite finalhandler_status, finalhandler_body. done.
Qed.

Lemma unknown_path_not_found_witness :
  (JS.toUpperCase (req_method unknown_get) <> "OPTIONS"%string
   /\ accepted BodyParser.json BodyParser.urlencoded unknown_get
   /\ Express.match_path "/" (req_path unknown_get) = false
   /\ Express.match_path "/api/data" (req_path unknown_get) = false)
  /\ serve 0 unknown_get = Finalhandler.finalhandler None unknown_get after_cors
  /\ statusCode (serve 0 unknown_get) = 404
  /\ res_body (serve 0 unknown_get)
     = Document (Cannot "GET" "/api/users").
Proof.
  pose proof examples_accepted as (_ & _ & Ha & _).
  split; [repeat split; try apply Ha; discriminate|].
  by apply (unknown_path_not_found BodyParser.json BodyParser.urlencoded
              0 unknown_get ∅).
Defined.

(** C4 as stated fails: the path [/api/data/] is neither [/] nor
    [/api/data], and a GET for it is answered 200 by the data route. *)
Lemma trailing_slash_is_routed :
  let req := request "GET" "/api/data/" [] "" in
  req_path req <> "/"%string /\ req_path req <> "/api/data"%string
  /\ statusCode (serve 1793688120123 req) = 200
  /\ response_timestamp (serve 1793688120123 req)
     = Some "2026-11-03T06:42:00.123Z"%string.
Proof. vm_compute. repeat split; discriminate. Qed.




(** C7 (amended). A request that is not a preflight and that one of the
    two body parsers fails with an error [e] gets the error reply of
    [finalhandler] for [e] and no other: its document, and the status of
    [e] when that is one of the client errors body-parser makes (400,
    413, 415). The reply is the same whatever the two route handlers
    are and the store is left as it was: no handler is reached. A
    preflight (OPTIONS) request is answered 204 by [cors] before any
    body parser runs, again whatever the handlers are. *)
Theorem rejected_body (json urlencoded : Middleware) (h_root h_data : Handler)
  (now : Z) (req : Request) (store : Store) (e : HttpError) :
  rejected json urlencoded req e ->
  (JS.toUpperCase (req_method req) <> "OPTIONS"%string ->
   Express.handle (app_with json urlencoded h_root h_data) now req store
   = (respond json urlencoded now req store, store)
   /\ respond json urlencoded now req store
      = Finalhandler.finalhandler (Some e) req after_cors
   /\ res_body (respond json urlencoded now req store)
      = (if String.eqb (req_method req) "HEAD" then NoBody
         else Document (Failure e))
   /\ (client_error e ->
       statusCode (respond json urlencoded now req store) = err_status e
       /\ 400 <= statusCode (respond json urlencoded now req store) < 500))
  /\ (JS.toUpperCase (req_method req) = "OPTIONS"%string ->
      Express.handle (app_with json urlencoded h_root h_data) now req store
      = (respond json urlencoded now req store, store)
      /\ statusCode (respond json urlencoded now req store) = 204
      /\ res_body (respond json urlencoded now req store) = NoBody).
Proof.
  intros He. split.
  - intros Hm.
    rewrite (respond_rejected json urlencoded now req store e Hm He).
    rewrite (handle_rejected json urlencoded h_root h_data now req store e Hm He).
    split; [done|]. split; [done|].
    rewrite finalhandler_status, finalhandler_body. split; [done|].
    intros Hs.
    assert (Finalhandler.status (Some e) after_cors = err_status e) as ->.
    { unfold Finalhandler.status, Finalhandler.in_error_range.
      destruct Hs as [-> | [-> | ->]]; reflexivity. }
    split; [done|]. destruct Hs as [-> | [-> | ->]]; lia.
  - intros Hm. unfold respond.
    destruct (handle_preflight json urlencoded root_handler data_handler
                now req store Hm) as (res' & Hc & -> & Hs & Hb & _).
    destruct (handle_preflight json urlencoded h_root h_data
                now req store Hm) as (res'' & Hc' & -> & _).
    cbn [fst]. split; [congruence | done].
Qed.

Lemma rejected_body_witness :
  (rejected BodyParser.json BodyParser.urlencoded broken_post parse_failed
   /\ JS.toUpperCase (req_method broken_post) <> "OPTIONS"%string
   /\ client_error parse_failed)
  /\ serve 0 broken_post
     = Finalhandler.finalhandler (Some parse_failed) broken_post after_cors
  /\ statusCode (serve 0 broken_post) = 400
  /\ res_body (serve 0 broken_post) = Document (Failure parse_failed).
Proof.
  assert (rejected BodyParser.json BodyParser.urlencoded broken_post parse_failed)
    as He by (left; intros res store; reflexivity).
  assert (JS.toUpperCase (req_method broken_post) <> "OPTIONS"%string) as Hm
    by discriminate.
  assert (client_error parse_failed) as Hc by (left; reflexivity).
  split; [done|].
  destruct (rejected_body BodyParser.json BodyParser.urlencoded
              root_handler data_handler 0 broken_post ∅ parse_failed He)
    as [H _].
  destruct (H Hm) as (_ & H1 & H2 & H3). destruct (H3 Hc) as [H4 _].
  split; [exact H1|]. split; [exact H4 | exact H2].
Defined.

(** C7 as stated fails: an OPTIONS request with a malformed JSON body is
    answered 204, not with a client error. *)
Lemma preflight_with_malformed_body :
  let req := request "OPTIONS" "/api/data"
               [("content-type", "application/json"); ("content-length", "1")]
               "{" in
  body_error req = Some (BodyParser.error 400 "entity.parse.failed")
  /\ statusCode (serve 0 req) = 204.
Proof. vm_compute. repeat split. Qed.

(** C5. Whatever the request (any method, any path, any Origin, any
    body), the response carries [Access-Control-Allow-Origin: *]. *)
Theorem any_origin_allowed (now : Z) (req : Request) :
  res_headers (serve now req) !! "access-control-allow-origin" = Some "*"%string.
Proof.
  unfold serve, app.
  destruct (String.eqb_spec (JS.toUpperCase (req_method req)) "OPTIONS")
    as [Hm|Hm].
  - by destruct (handle_preflight BodyParser.json BodyParser.urlencoded
                   root_handler data_handler now req ∅ Hm)
      as (res' & _ & -> & _ & _ & H).
  - destruct (body_error req) as [e|] eqn:He.
    + rewrite (handle_rejected _ _ _ _ _ _ _ e)
        by (done || by apply body_error_rejected).
      cbn [fst]. rewrite finalhandler_keeps; [reflexivity | solve_notin].
    + rewrite handle_accepted by (done || by apply body_error_accepted).
      rewrite routes_keep; [reflexivity | solve_notin].
Qed.

(** C6 (amended). [app.listen] is given the value of [PORT] when the
    variable is set and not empty, and 3000 otherwise. The server then
    listens on the TCP port that value denotes when that is an integer
    from 1 to 65535: for a string of decimal digits, the number they
    write (with [PORT=8080] port 8080 and not 3000), and port 3000 when
    the variable is unset or empty. For 0 the system picks a free port,
    and for a number above 65535 [listen] throws and the server never
    listens. *)
Theorem port_selection (env : gmap string string) :
  (forall v n, env !! "PORT" = Some v -> decimal_value v = Some n ->
     (1 <= n <= 65535 -> binding (listen env) = Net.Port n)
     /\ (n = 0 -> binding (listen env) = Net.AnyPort)
     /\ (65535 < n -> binding (listen env) = Net.Throws))
  /\ (env !! "PORT" = None \/ env !! "PORT" = Some ""%string ->
      binding (listen env) = Net.Port 3000)
  /\ (env !! "PORT" = Some "8080"%string ->
      binding (listen env) = Net.Port 8080
      /\ binding (listen env) <> Net.Port 3000).
Proof.
  unfold listen, PORT, JS.or. cbn [binding]. split; [|split].
  - intros v n -> Hv. cbn [JS.truthy].
    destruct (Number_digits _ _ Hv) as (_ & Hne & _).
    destruct (String.eqb_spec v "") as [|_]; [done|]. cbn [negb].
    rewrite (listen_digits _ _ Hv).
    repeat split; intros H.
    + destruct (Z.eqb_spec n 0); [lia|]. destruct (Z.leb_spec n 65535); [done | lia].
    + by subst n.
    + destruct (Z.eqb_spec n 0); [lia|]. destruct (Z.leb_spec n 65535); [lia | done].
  - by intros [-> | ->].
  - intros ->. split; [reflexivity | discriminate].
Qed.

Lemma port_selection_witness :
  (port_8080 !! "PORT" = Some "8080"%string
   /\ decimal_value "8080" = Some 8080 /\ 1 <= 8080 <= 65535)
  /\ binding (listen port_8080) = Net.Port 8080
  /\ binding (listen ∅) = Net.Port 3000.
Proof.
  split; [repeat split; lia|].
  destruct (port_selection port_8080) as (H1 & _ & _).
  destruct (port_selection ∅) as (_ & H2 & _).
  destruct (H1 "8080"%string 8080 eq_refl eq_refl) as (H & _).
  split; [apply H; lia | apply H2; by left].
Defined.

(** C6 as stated fails: with [PORT=65536] the variable is set and not
    empty, but the server does not listen on port 65536, nor on any
    other: [listen] throws. With [PORT=0] it listens on a port the
    system picks, and with [PORT=abc] on a pipe of that name. *)
Lemma port_out_of_range :
  let env : gmap string string := {[ "PORT" := "65536" ]} in
  env !! "PORT" = Some "65536"%string
  /\ binding (listen env) <> Net.Port 65536
  /\ binding (listen env) = Net.Throws
  /\ binding (listen {[ "PORT" := "0" ]}) = Net.AnyPort
  /\ binding (listen {[ "PORT" := "abc" ]}) = Net.Path "abc".
Proof. vm_compute. repeat split; discriminate. Qed.

(** The application of [server.js] answers from the request and the
    clock alone and leaves the store as it finds it. *)
Lemma handle_app (now : Z) (req : Request) (store : Store) :
  Express.handle app now req store = (serve now req, store).
Proof.
  assert (exists res, forall st, Express.handle app now req st = (res, st))
    as [res H]; [|by unfold serve; rewrite !H].
  unfold app.
  destruct (String.eqb_spec (JS.toUpperCase (req_method req)) "OPTIONS")
    as [Hm|Hm].
  - destruct (cors_preflight req (Express.expressInit Express.fresh_response) Hm)
      as (res & Hc & _).
    exists res. intros st.
    destruct (handle_preflight BodyParser.json BodyParser.urlencoded
                root_handler data_handler now req st Hm) as (res' & Hc' & -> & _).
    congruence.
  - destruct (body_error req) as [e|] eqn:He.
    + eexists. intros st.
      by rewrite (handle_rejected _ _ _ _ _ _ _ e)
        by (done || by apply body_error_rejected).
    + eexists. intros st.
      rewrite handle_accepted by (done || by apply body_error_accepted).
      by rewrite routes_table.
Qed.

Lemma cycles_app (s : Server) (reqs : list (Z * Request)) :
  listen_app s = app ->
  cycles s reqs = (s, map (fun '(now, req) => serve now req) reqs).
Proof.
  destruct s as [b a st]. cbn [listen_app]. intros ->.
  induction reqs as [|[now req] reqs IH]; [done|].
  cbn [cycles map]. unfold cycle. cbn [listen_app store binding].
  by rewrite handle_app, IH.
Qed.

(** C8. No layer of [server.js] writes to the store of the process:
    whatever the store holds, the response is the one a process that has
    just started gives, and the store is left as it was. So handling a
    sequence of requests leaves the process as it was, and every
    response in the sequence is the response the request would get
    alone. *)
Theorem requests_are_independent (env : gmap string string)
  (reqs : list (Z * Request)) :
  (forall now req store, Express.handle app now req store = (serve now req, store))
  /\ fst (cycles (listen env) reqs) = listen env
  /\ snd (cycles (listen env) reqs)
     = map (fun '(now, req) => serve now req) reqs.
Proof.
  split; [apply handle_app|]. by rewrite cycles_app.
Qed.
(** * Further properties of the service *)

(** The model of body-parser either passes a request on or fails it
    with a client error. *)
Lemma model_decided (req : Request) :
  decided BodyParser.json BodyParser.urlencoded req.
Proof.
  unfold decided. destruct (body_error req) as [e|] eqn:He.
  - right. exists e.
    split; [by apply body_error_rejected | by eapply body_error_status].
  - left. by apply body_error_accepted.
Qed.

(** The response to a request that is not a preflight, by cases. *)
Lemma respond_cases (json urlencoded : Middleware) (now : Z) (req : Request)
  (store : Store) :
  JS.toUpperCase (req_method req) <> "OPTIONS"%string ->
  decided json urlencoded req ->
  (exists chunk res,
     statusCode res = 200 /\ res_headers res !! "etag" = None
     /\ res_headers res !! "x-powered-by" = Some "Express"%string
     /\ (chunk = welcome \/ chunk = JSON.stringify (sample_document now))
     /\ respond json urlencoded now req store = Express.send req chunk res)
  \/ (exists err,
        match err with Some e => client_error e | None => True end
        /\ respond json urlencoded now req store
           = Finalhandler.finalhandler err req after_cors).
Proof.
  intros Hm [Ha | (e & Hr & Hc)].
  - rewrite respond_table by done.
    destruct (Express.handles_method "get" (req_method req));
      [|right; by exists None].
    destruct (Express.match_path "/" (req_path req)).
    { left. exists welcome, after_cors.
      split; [reflexivity|]. split; [reflexivity|]. split; [reflexivity|].
      split; [by left | reflexivity]. }
    destruct (Express.match_path "/api/data" (req_path req));
      [|right; by exists None].
    left. exists (JSON.stringify (sample_document now)).
    eexists. split; [|split; [|split; [|split; [by right | reflexivity]]]];
      reflexivity.
  - right. exists (Some e). split; [done|]. by apply respond_rejected.
Qed.

(** What [cors] answers to a preflight. *)
Lemma preflight_response (req : Request) :
  JS.toUpperCase (req_method req) = "OPTIONS"%string ->
  Cors.corsMiddleware req (Express.expressInit Express.fresh_response)
  = End {| statusCode := 204;
           res_headers :=
             <["content-length" := "0"%string]>
               (res_headers
                  (Cors.configureAllowedHeaders req
                     (Cors.configureMethods
                        (Cors.configureOrigin
                           (Express.expressInit Express.fresh_response)))));
           res_body := NoBody |}.
Proof. intros Hm. unfold Cors.corsMiddleware. by rewrite Hm. Qed.

(** A preflight is answered with the reply of [cors]. *)
Lemma respond_preflight (json urlencoded : Middleware) (now : Z) (req : Request)
  (store : Store) :
  JS.toUpperCase (req_method req) = "OPTIONS"%string ->
  exists h, respond json urlencoded now req store
            = {| statusCode := 204; res_headers := h; res_body := NoBody |}
    /\ h !! "x-powered-by" = Some "Express"%string.
Proof.
  intros Hm. unfold respond.
  destruct (handle_preflight json urlencoded
              root_handler data_handler now req store Hm) as (res' & Hc & -> & _).
  rewrite (preflight_response req Hm) in Hc. injection Hc as <-.
  eexists. split; [reflexivity|].
  rewrite lookup_insert_ne by done.
  rewrite allowedHeaders_keeps by done. reflexivity.
Qed.

(** X1. Every OPTIONS request, whatever its path, headers and body, is
    answered by [cors] with status 204 and no body: the reply allows
    every origin and the methods GET, HEAD, PUT, PATCH, POST and DELETE,
    repeats the headers the request asks for in
    [Access-Control-Allow-Headers] (none when it asks for none), varies
    on that request header and has a Content-Length of 0. *)
Theorem preflight_reply (json urlencoded : Middleware) (now : Z) (req : Request)
  (store : Store) :
  JS.toUpperCase (req_method req) = "OPTIONS"%string ->
  let res := respond json urlencoded now req store in
  statusCode res = 204 /\ res_body res = NoBody
  /\ res_headers res !! "access-control-allow-origin" = Some "*"%string
  /\ res_headers res !! "access-control-allow-methods"
     = Some "GET,HEAD,PUT,PATCH,POST,DELETE"%string
  /\ res_headers res !! "access-control-allow-headers"
     = (match req_headers req !! "access-control-request-headers" with
        | Some v => if String.eqb v "" then None else Some v
        | None => None
        end)
  /\ res_headers res !! "vary" = Some "Access-Control-Request-Headers"%string
  /\ res_headers res !! "content-length" = Some "0"%string.
Proof.
  intros Hm res. unfold res, respond.
  destruct (handle_preflight json urlencoded root_handler data_handler
              now req store Hm) as (res' & Hc & -> & _).
  rewrite (preflight_response req Hm) in Hc. injection Hc as <-.
  cbn [fst statusCode res_body res_headers].
  unfold Cors.configureAllowedHeaders.
  destruct (req_headers req !! "access-control-request-headers") as [v|];
    [destruct (String.eqb v "")|]; by vm_compute.
Qed.

Lemma preflight_reply_witness :
  JS.toUpperCase (req_method preflight) = "OPTIONS"%string
  /\ statusCode (serve 0 preflight) = 204
  /\ res_headers (serve 0 preflight) !! "access-control-allow-headers"
     = Some "content-type, x-token"%string.
Proof.
  split; [reflexivity|].
  destruct (preflight_reply BodyParser.json BodyParser.urlencoded 0 preflight ∅
              eq_refl) as (H1 & _ & _ & _ & H2 & _).
  split; [exact H1 | exact H2].
Defined.

Ltac solve_elem :=
  solve [repeat first [apply list_elem_of_here | apply list_elem_of_further]].

(** X2. Whatever the request, when the body parsers pass it on or fail
    it with a client error (400, 413, 415), the status of the response
    is one of 200, 204, 304, 400, 404, 413 and 415: the service never
    answers with a server error. The model of body-parser always does
    one or the other. *)
Theorem status_codes (json urlencoded : Middleware) (now : Z) (req : Request)
  (store : Store) :
  decided json urlencoded req ->
  statusCode (respond json urlencoded now req store)
  ∈ [200; 204; 304; 400; 404; 413; 415].
Proof.
  intros Hd.
  destruct (String.eqb_spec (JS.toUpperCase (req_method req)) "OPTIONS")
    as [Hm|Hm].
  - destruct (respond_preflight json urlencoded now req store Hm) as (h & -> & _).
    cbn. solve_elem.
  - destruct (respond_cases json urlencoded now req store Hm Hd)
      as [(chunk & res & Hs & He & _ & _ & ->) | (err & Hc & ->)].
    + rewrite send_spec by done. cbn.
      destruct (revalidated req chunk); solve_elem.
    + rewrite finalhandler_status.
      unfold Finalhandler.status, Finalhandler.in_error_range.
      destruct err as [e|]; [|solve_elem].
      destruct Hc as [-> | [-> | ->]]; cbn; solve_elem.
Qed.

Lemma status_codes_witness :
  decided BodyParser.json BodyParser.urlencoded broken_post
  /\ statusCode (serve 0 broken_post) ∈ [200; 204; 304; 400; 404; 413; 415].
Proof.
  split; [apply model_decided|].
  apply (status_codes BodyParser.json BodyParser.urlencoded 0 broken_post ∅).
  apply model_decided.
Defined.

(** X3. Every response names the framework: it carries
    [X-Powered-By: Express], which [server.js] does not disable. *)
Theorem powered_by (json urlencoded : Middleware) (now : Z) (req : Request)
  (store : Store) :
  decided json urlencoded req ->
  res_headers (respond json urlencoded now req store) !! "x-powered-by"
  = Some "Express"%string.
Proof.
  intros Hd.
  destruct (String.eqb_spec (JS.toUpperCase (req_method req)) "OPTIONS")
    as [Hm|Hm].
  - by destruct (respond_preflight json urlencoded now req store Hm)
      as (h & -> & H).
  - destruct (respond_cases json urlencoded now req store Hm Hd)
      as [(chunk & res & _ & _ & Hx & _ & ->) | (err & _ & ->)].
    + rewrite send_keeps; [done | solve_notin].
    + rewrite finalhandler_keeps; [reflexivity | solve_notin].
Qed.

Lemma powered_by_witness :
  decided BodyParser.json BodyParser.urlencoded plain_get
  /\ res_headers (serve 0 plain_get) !! "x-powered-by" = Some "Express"%string.
Proof.
  split; [apply model_decided|].
  apply (powered_by BodyParser.json BodyParser.urlencoded 0 plain_get ∅).
  apply model_decided.
Defined.





(** X6. The data route is reached by its path in any letter case and
    with a trailing slash: a GET request for such a path gets the
    document as one for [/api/data] does. *)
Theorem data_route_spelling (json urlencoded : Middleware) (now : Z)
  (req : Request) (store : Store) :
  req_method req = "GET"%string ->
  JS.toLowerCase (req_path req) = "/api/data"%string
  \/ JS.toLowerCase (req_path req) = "/api/data/"%string ->
  accepted json urlencoded req ->
  not_modified req (JSON.stringify (sample_document now)) = false ->
  statusCode (respond json urlencoded now req store) = 200
  /\ res_body (respond json urlencoded now req store)
     = Chunk (JSON.stringify (sample_document now))
  /\ res_headers (respond json urlencoded now req store) !! "content-type"
     = Some "application/json; charset=utf-8"%string.
Proof.
  intros Hm Hp Ha Hf. destruct (get_is_actual req Hm) as [Hn Hg].
  rewrite respond_table, Hg by done.
  assert (Express.match_path "/" (req_path req) = false) as ->.
  { unfold Express.match_path. by destruct Hp as [-> | ->]. }
  assert (Express.match_path "/api/data" (req_path req) = true) as ->.
  { unfold Express.match_path. by destruct Hp as [-> | ->]. }
  unfold Express.json.
  set (res := Express.defaultHeader _ _ after_cors).
  assert (Express.defaultHeader "content-type" "text/html; charset=utf-8" res = res)
    as Hd by reflexivity.
  rewrite send_spec, Hd by done.
  assert (revalidated req (JSON.stringify (sample_document now)) = false) as ->.
  { unfold revalidated. by rewrite Hf, andb_false_r. }
  cbn [statusCode res_body res_headers]. rewrite Hm.
  split; [reflexivity|]. split; [reflexivity|].
  by rewrite !lookup_insert_ne.
Qed.

Lemma data_route_spelling_witness :
  let req := request "GET" "/API/Data/" [] "" in
  JS.toLowerCase (req_path req) = "/api/data/"%string
  /\ statusCode (serve 1793688120123 req) = 200
  /\ res_body (serve 1793688120123 req)
     = Chunk (JSON.stringify (sample_document 1793688120123)).
Proof.
  intros req. split; [reflexivity|].
  assert (accepted BodyParser.json BodyParser.urlencoded req) as Ha
    by (split; intros res store; reflexivity).
  assert (not_modified req (JSON.stringify (sample_document 1793688120123)) = false)
    as Hf by (vm_compute; reflexivity).
  destruct (data_route_spelling BodyParser.json BodyParser.urlencoded
              1793688120123 req ∅ eq_refl (or_intror eq_refl) Ha Hf)
    as (H1 & H2 & _).
  split; [exact H1 | exact H2].
Defined.

(** X7. The line the process logs when it listens ends with the value
    that [listen] was given: the value of [PORT] when that is set and
    not empty, and 3000 otherwise. *)
Theorem startup_line (env : gmap string string) :
  (forall v, env !! "PORT" = Some v -> v <> ""%string ->
     startup_log env = ("Server is running on http://localhost:" +:+ v)%string)
  /\ (env !! "PORT" = None \/ env !! "PORT" = Some ""%string ->
      startup_log env = "Server is running on http://localhost:3000"%string).
Proof.
  unfold startup_log, PORT, JS.or. split.
  - intros v -> Hv. cbn [JS.truthy].
    by destruct (String.eqb_spec v "").
  - by intros [-> | ->].
Qed.

Lemma startup_line_witness :
  startup_log port_8080 = "Server is running on http://localhost:8080"%string
  /\ startup_log ∅ = "Server is running on http://localhost:3000"%string.
Proof.
  destruct (startup_line port_8080) as [H1 _].
  destruct (startup_line ∅) as [_ H2].
  split; [by apply H1 | apply H2; by left].
Defined.

(** X8. A response with an error status (400 or above) is a reply of
    [finalhandler]: an HTML document (none for HEAD) with
    [Content-Security-Policy: default-src 'none'] and
    [X-Content-Type-Options: nosniff], and without entity tag. *)
Theorem error_replies (json urlencoded : Middleware) (now : Z) (req : Request)
  (store : Store) :
  decided json urlencoded req ->
  400 <= statusCode (respond json urlencoded now req store) ->
  let res := respond json urlencoded now req store in
  res_headers res !! "content-type" = Some "text/html; charset=utf-8"%string
  /\ res_headers res !! "content-security-policy"
     = Some "default-src 'none'"%string
  /\ res_headers res !! "x-content-type-options" = Some "nosniff"%string
  /\ res_headers res !! "etag" = None
  /\ (if String.eqb (req_method req) "HEAD" then res_body res = NoBody
      else exists m, res_body res = Document m).
Proof.
  intros Hd.
  destruct (String.eqb_spec (JS.toUpperCase (req_method req)) "OPTIONS")
    as [Hm|Hm].
  { destruct (respond_preflight json urlencoded now req store Hm)
      as (h & -> & _). cbn. lia. }
  destruct (respond_cases json urlencoded now req store Hm Hd)
    as [(chunk & res & Hs & He & _ & _ & ->) | (err & _ & ->)].
  { rewrite send_spec by done. cbn. destruct (revalidated req chunk); lia. }
  intros _. cbv zeta. rewrite finalhandler_body.
  rewrite (finalhandler_keeps _ _ _ "etag") by solve_notin.
  split; [|split; [|split; [|split; [reflexivity|]]]].
  4: { destruct (String.eqb (req_method req) "HEAD"); [done | by eexists]. }
  all: unfold Finalhandler.finalhandler;
    destruct (String.eqb (req_method req) "HEAD");
    cbn [res_headers endWith setHeader];
    by rewrite ?lookup_insert_eq, ?lookup_insert_ne, ?lookup_insert_eq,
               ?lookup_insert_ne, ?lookup_insert_eq by done.
Qed.

Lemma error_replies_witness :
  (decided BodyParser.json BodyParser.urlencoded unknown_get
   /\ 400 <= statusCode (serve 0 unknown_get))
  /\ res_headers (serve 0 unknown_get) !! "x-content-type-options"
     = Some "nosniff"%string
  /\ exists m, res_body (serve 0 unknown_get) = Document m.
Proof.
  assert (400 <= statusCode (serve 0 unknown_get)) as H by (vm_compute; discriminate).
  split; [split; [apply model_decided | exact H]|].
  destruct (error_replies BodyParser.json BodyParser.urlencoded 0 unknown_get ∅
              (model_decided unknown_get) H) as (_ & _ & H1 & _ & H2).
  split; [exact H1 | exact H2].
Defined.

Lemma length_app (a b : string) :
  String.length (a +:+ b) = (String.length a + String.length b)%nat.
Proof. induction a as [|c a IH]; [done|]. rewrite append_String. cbn. by rewrite IH. Qed.

Lemma pad_length (k : nat) (n : Z) : String.length (Date.pad k n) = k.
Proof. induction k as [|k IH]; cbn; [done | by rewrite IH]. Qed.

Lemma toISOString_length (t : Z) :
  0 <= Date.YearFromTime t <= 9999 ->
  String.length (Date.toISOString t) = 24%nat.
Proof.
  intros Hy. unfold Date.toISOString, Date.year_string.
  destruct (Z.leb_spec 0 (Date.YearFromTime t)); [|lia].
  destruct (Z.leb_spec (Date.YearFromTime t) 9999); [|lia].
  cbn [andb]. rewrite !length_app, !pad_length. reflexivity.
Qed.

(** X9. The timestamp of the data route is a fixed-width, reversible
    rendering of the clock: for a valid time value the ISO string parses
    back to that value, it has the shape [YYYY-MM-DDTHH:mm:ss.sssZ], and
    in the years 0 to 9999 it is 24 characters long. *)
Theorem timestamp_format (t : Z) :
  Date.valid t ->
  Date.parse (Date.toJSON (new_Date t)) = Some t
  /\ iso_fields (Date.toJSON (new_Date t)) = true
  /\ (0 <= Date.YearFromTime t <= 9999 ->
      String.length (Date.toJSON (new_Date t)) = 24%nat).
Proof.
  intros Hv. unfold Date.toJSON, new_Date. split; [by apply parse_toISOString|].
  split; [apply iso_fields_toISOString | apply toISOString_length].
Qed.

Lemma timestamp_format_witness :
  Date.valid 1793688120123
  /\ Date.parse (Date.toJSON (new_Date 1793688120123)) = Some 1793688120123
  /\ String.length (Date.toJSON (new_Date 1793688120123)) = 24%nat.
Proof.
  assert (Date.valid 1793688120123) as Hv
    by (unfold Date.valid, Date.maxTime; lia).
  split; [exact Hv|].
  destruct (timestamp_format 1793688120123 Hv) as (H1 & _ & H2).
  split; [exact H1|]. apply H2. vm_compute. split; discriminate.
Defined.

Lemma document_length (now : Z) :
  0 <= Date.YearFromTime now <= 9999 ->
  JS.len (JSON.stringify (sample_document now)) = 95.
Proof.
  intros Hy. unfold JS.len, sample_document.
  cbn [JSON.stringify map JSON.join fst snd]. unfold JSON.quote.
  rewrite (quote_chars_plain (Date.toISOString now)) by apply toISOString_plain.
  rewrite !length_app. cbn [String.length].
  rewrite !length_app. cbn [String.length].
  rewrite toISOString_length by done. reflexivity.
Qed.

(** X10. In the years 0 to 9999 the document of the data route always
    has the same size: a GET request that is answered with it gets
    [Content-Length: 95]. *)
Theorem document_size (json urlencoded : Middleware) (now : Z) (req : Request)
  (store : Store) :
  0 <= Date.YearFromTime now <= 9999 ->
  req_method req = "GET"%string ->
  req_path req = "/api/data"%string ->
  accepted json urlencoded req ->
  not_modified req (JSON.stringify (sample_document now)) = false ->
  res_headers (respond json urlencoded now req store) !! "content-length"
  = Some "95"%string.
Proof.
  intros Hy Hm Hp Ha Hf. destruct (get_is_actual req Hm) as [Hn Hg].
  rewrite respond_table, Hg, Hp by done.
  change (Express.match_path "/" "/api/data") with false.
  change (Express.match_path "/api/data" "/api/data") with true. cbv iota.
  unfold Express.json.
  set (res := Express.defaultHeader _ _ after_cors).
  assert (statusCode res = 200) as Hs by reflexivity.
  assert (res_headers res !! "etag" = None) as He by reflexivity.
  rewrite send_spec by done.
  assert (revalidated req (JSON.stringify (sample_document now)) = false) as ->.
  { unfold revalidated. by rewrite Hf, andb_false_r. }
  cbn [res_headers].
  rewrite lookup_insert_ne, lookup_insert_eq by done.
  by rewrite document_length.
Qed.

Lemma document_size_witness :
  (0 <= Date.YearFromTime 1793688120123 <= 9999
   /\ accepted BodyParser.json BodyParser.urlencoded data_get)
  /\ res_headers (serve 1793688120123 data_get) !! "content-length"
     = Some "95"%string.
Proof.
  pose proof examples_accepted as (_ & Ha & _).
  assert (0 <= Date.YearFromTime 1793688120123 <= 9999) as Hy
    by (vm_compute; split; discriminate).
  split; [by split|].
  apply (document_size BodyParser.json BodyParser.urlencoded
           1793688120123 data_get ∅ Hy eq_refl eq_refl Ha).
  vm_compute. reflexivity.
Defined.


(** [res.send] and [finalhandler] look at the method, the path and the
    headers of the request only. *)
Lemma send_reads (req req' : Request) (chunk : string) (res : Response) :
  req_method req' = req_method req -> req_headers req' = req_headers req ->
  Express.send req' chunk res = Express.send req chunk res.
Proof.
  intros Hm Hh. unfold Express.send, Express.req_fresh. by rewrite Hm, Hh.
Qed.

Lemma finalhandler_reads (req req' : Request) (err : option HttpError)
  (res : Response) :
  req_method req' = req_method req -> req_path req' = req_path req ->
  Finalhandler.finalhandler err req' res = Finalhandler.finalhandler err req res.
Proof.
  intros Hm Hp. unfold Finalhandler.finalhandler, Finalhandler.message.
  by rewrite Hm, Hp.
Qed.

(** X11. No route reads the request body: of two requests that differ in
    their entity only and that the body-parsing middleware both accepts,
    the responses are the same. *)
Theorem body_unused (json urlencoded : Middleware) (now : Z) (req : Request)
  (store : Store) (entity : string) (inflated : option string) :
  accepted json urlencoded req ->
  accepted json urlencoded (with_body entity inflated req) ->
  respond json urlencoded now (with_body entity inflated req) store
  = respond json urlencoded now req store.
Proof.
  intros Ha Ha'.
  destruct (String.eqb_spec (JS.toUpperCase (req_method req)) "OPTIONS")
    as [Hm|Hm].
  - unfold respond.
    destruct (handle_preflight json urlencoded root_handler data_handler
                now req store Hm) as (r1 & H1 & -> & _).
    destruct (handle_preflight json urlencoded root_handler data_handler
                now (with_body entity inflated req) store Hm)
      as (r2 & H2 & -> & _).
    assert (Cors.corsMiddleware (with_body entity inflated req)
              (Express.expressInit Express.fresh_response)
            = Cors.corsMiddleware req (Express.expressInit Express.fresh_response))
      as E by reflexivity.
    cbn [fst]. congruence.
  - rewrite !respond_table by done.
    cbn [req_method req_path with_body]. unfold Express.json.
    by rewrite !(send_reads req (with_body entity inflated req)),
               !(finalhandler_reads req (with_body entity inflated req)).
Qed.

Lemma body_unused_witness :
  let req := request "POST" "/api/data"
               [("content-type", "text/plain"); ("content-length", "5")] "hello" in
  accepted BodyParser.json BodyParser.urlencoded req
  /\ serve 7 (with_body "other" None req) = serve 7 req.
Proof.
  intros req.
  assert (accepted BodyParser.json BodyParser.urlencoded req) as Ha
    by (split; intros res store; reflexivity).
  split; [exact Ha|].
  apply (body_unused BodyParser.json BodyParser.urlencoded 7 req ∅ "other" None Ha).
  split; intros res store; reflexivity.
Defined.


